(** * Credential verification and token issuance: authService over userRepository

    A shallow embedding of [src/api/auth/authService.ts] and
    [src/api/user/userRepository.ts].  The asynchronous, store-backed code is
    written in a small state-and-exception monad over an explicit [World];
    the third-party libraries (bcryptjs, jsonwebtoken, mongoose) appear through
    the interface the code calls. *)

From Stdlib Require Import String Ascii List ZArith Bool Lia.
Import ListNotations.
Local Open Scope string_scope.

(** ** HTTP status codes (the constants of http-status-codes the code uses) *)

Module StatusCodes.
Definition OK : Z := 200.
Definition UNPROCESSABLE_ENTITY : Z := 422.
Definition INTERNAL_SERVER_ERROR : Z := 500.
End StatusCodes.

(** ** The result envelope *)

(** Modelled from the spec: the enum [ResponseStatus] of [@/enums], whose
    declaration is not among the sources.  "status (Success | Failed)". *)
Inductive ResponseStatus : Set := Success | Failed.

(** Modelled from the spec: the class [ServiceResponse<T>] of
    [@/common/models/serviceResponse], whose declaration is not among the
    sources.  "Fields: status, human-readable message, optional typed payload,
    numeric status code".  The constructor's four arguments are kept in the
    order the code passes them; [undefined] is [None]. *)
Record ServiceResponse (T : Type) : Type := mkServiceResponse {
  status : ResponseStatus;
  message : string;
  responseObject : option T;
  statusCode : Z
}.
Arguments mkServiceResponse {T} _ _ _ _.
Arguments status {T} _.
Arguments message {T} _.
Arguments responseObject {T} _.
Arguments statusCode {T} _.

(** ** Session tokens (jsonwebtoken) *)

(** A token is kept symbolic: the three arguments of [jwt.sign], that is the
    claims that were signed, the key they were signed under and the requested
    lifetime.  [verify] accepts a token exactly under the key that signed it;
    [decode] reads the claims without checking the key.  [sign] is total: it
    throws on an empty key or a malformed lifetime, and the code passes
    neither (see [or_default_nonempty]). *)
Module jwt.
Definition Payload : Type := list (string * string).

Record SignOptions : Type := mkSignOptions { expiresIn : string }.

Record token : Type := mkToken {
  claims : Payload;
  key : string;
  options : SignOptions
}.

Definition sign (payload : Payload) (secretOrPrivateKey : string)
    (opts : SignOptions) : token :=
  mkToken payload secretOrPrivateKey opts.

Definition decode (t : token) : Payload := claims t.

Definition verify (t : token) (secretOrPublicKey : string) : option Payload :=
  if String.eqb (key t) secretOrPublicKey then Some (claims t) else None.

Fixpoint get (k : string) (p : Payload) : option string :=
  match p with
  | [] => None
  | (k', v) :: rest => if String.eqb k k' then Some v else get k rest
  end.

(** Lifetimes.  The code writes them as decimal digits followed by one unit
    letter ("1d", "2d", "7d"); [timespan] reads that form in seconds, the
    way jsonwebtoken adds it to the issue time to obtain [exp]. *)
Definition unit_seconds (c : ascii) : option Z :=
  match c with
  | "s"%char => Some 1%Z
  | "m"%char => Some 60%Z
  | "h"%char => Some 3600%Z
  | "d"%char => Some 86400%Z
  | "w"%char => Some 604800%Z
  | _ => None
  end.

Definition digit (c : ascii) : option Z :=
  let n := nat_of_ascii c in
  if andb (Nat.leb 48 n) (Nat.leb n 57) then Some (Z.of_nat (n - 48))
  else None.

Fixpoint timespan_from (s : string) (acc : option Z) : option Z :=
  match s with
  | EmptyString => None
  | String c rest =>
      match digit c with
      | Some d =>
          timespan_from rest
            (Some (10 * match acc with Some a => a | None => 0 end + d)%Z)
      | None =>
          match acc, rest with
          | Some a, EmptyString => option_map (Z.mul a) (unit_seconds c)
          | _, _ => None
          end
      end
  end.

Definition timespan (s : string) : option Z := timespan_from s None.

Definition lifetime (t : token) : option Z := timespan (expiresIn (options t)).
End jwt.

(** ** User documents *)

(** The object literal [register] hands to [createUserAsync]. *)
Record UserData : Type := mkUserData {
  d_name : string;
  d_email : string;
  d_password : string;
  d_Role : string;
  d_phoneNumber : string;
  d_Date : string;
  d_Gender : string;
  d_Avatar : string;
  d_age : string;
  d_createAt : Z;
  d_updatedAt : Z;
  d_IdDoctor : string
}.

(** What the schema of [@/api/user/userModel] (not among the sources) fixes:
    the identifiers a new document gets, the store's own [_id] and the
    application-level [IdUser], both drawn from a counter; which strings
    cast to the type of [_id]; and the message of the CastError raised for a
    string that does not. *)
Class UserSchema : Type := {
  ObjectId : nat -> string;
  defaultIdUser : nat -> string;
  castId : string -> bool;
  castError : string -> string
}.

Module UserType.
(** Modelled from the spec: the document type [UserType]/[IUser], whose
    declaration is not among the sources.  "unique identifier; email;
    password; role; profile fields; creation and update timestamps", with
    the field names the code reads and writes. *)
Record t : Type := mk {
  _id : string;
  IdUser : string;
  name : string;
  email : string;
  password : string;
  Role : string;
  phoneNumber : string;
  Date : string;
  Gender : string;
  Avatar : string;
  age : string;
  createAt : Z;
  updatedAt : Z;
  IdDoctor : string
}.
End UserType.

(** ** The world the code runs in *)

Record ProcessEnv : Type := mkProcessEnv {
  JWT_SECRET : option string;
  TOKEN_SECRET : option string
}.

Record World : Type := mkWorld {
  users : list UserType.t;    (* the collection, in insertion order *)
  db_fault : option string;   (* [Some m]: every store call rejects with Error(m) *)
  env : ProcessEnv;           (* process.env, read-only *)
  clock : Z;                  (* what [new Date()] returns *)
  entropy : nat;              (* position in the random source of bcryptjs *)
  next_oid : nat;             (* counter behind freshly assigned identifiers *)
  errors_logged : list string;(* what [logger.error] has received, oldest first *)
  in_flight : list UserData   (* inserts handed to the store that nobody
                                 awaits and that have not landed, oldest first *)
}.

Definition with_users (w : World) (us : list UserType.t) : World :=
  mkWorld us (db_fault w) (env w) (clock w) (entropy w) (next_oid w)
          (errors_logged w) (in_flight w).

Definition with_in_flight (w : World) (ds : list UserData) : World :=
  mkWorld (users w) (db_fault w) (env w) (clock w) (entropy w) (next_oid w)
          (errors_logged w) ds.

(** ** Asynchronous computations: state passing with rejection *)

Inductive Settled (A : Type) : Type :=
| Fulfilled (value : A)
| Rejected (reason : string).   (* the [message] of the thrown [Error] *)
Arguments Fulfilled {A} _.
Arguments Rejected {A} _.

Definition Async (A : Type) : Type := World -> Settled A * World.

Definition ret {A} (a : A) : Async A := fun w => (Fulfilled a, w).

Definition throw {A} (m : string) : Async A := fun w => (Rejected m, w).

Definition bind {A B} (c : Async A) (k : A -> Async B) : Async B :=
  fun w =>
    match c w with
    | (Fulfilled a, w') => k a w'
    | (Rejected m, w') => (Rejected m, w')
    end.

(** [try { body } catch (ex) { handler ex.message }] *)
Definition try_catch {A} (body : Async A) (handler : string -> Async A)
    : Async A :=
  fun w =>
    match body w with
    | (Fulfilled a, w') => (Fulfilled a, w')
    | (Rejected m, w') => handler m w'
    end.

(** A promise the code holds without awaiting it.  The only one is the
    insert [register] starts: nothing has reached the collection when the
    promise is handed over, and its outcome reaches nobody. *)
Inductive Promise : Type :=
| inserting (userData : UserData).

Notation "x <- c ;; k" := (bind c (fun x => k))
  (at level 61, c at next level, right associativity).

Definition new_Date : Async Z := fun w => (Fulfilled (clock w), w).

Definition process_env : Async ProcessEnv := fun w => (Fulfilled (env w), w).

(** [process.env.X || fallback]: an unset or empty variable is falsy. *)
Definition or_default (v : option string) (fallback : string) : string :=
  match v with
  | Some s => if String.eqb s "" then fallback else s
  | None => fallback
  end.

Module logger.
Definition error (msg : string) : Async unit :=
  fun w =>
    (Fulfilled tt,
     mkWorld (users w) (db_fault w) (env w) (clock w) (entropy w)
             (next_oid w) (errors_logged w ++ [msg]) (in_flight w)).
End logger.

(** ** The collection (mongoose model [User]) *)

Module User.
Import UserType.

(** Query filters the code passes to [findOne]. *)
Inductive Filter : Type :=
| by_email (e : string)
| by_IdUser (i : string).

Definition matches (f : Filter) (u : UserType.t) : bool :=
  match f with
  | by_email e => String.eqb (email u) e
  | by_IdUser i => String.eqb (IdUser u) i
  end.

(** Update documents: the fields to set. *)
Inductive Assign : Type :=
| set_password (h : string)
| set_name (n : string)
| set_phoneNumber (p : string)
| set_Avatar (a : string).

Definition assign (a : Assign) (u : UserType.t) : UserType.t :=
  match a with
  | set_password h =>
      mk (_id u) (IdUser u) (name u) (email u) h (Role u) (phoneNumber u)
         (Date u) (Gender u) (Avatar u) (age u) (createAt u) (updatedAt u)
         (IdDoctor u)
  | set_name n =>
      mk (_id u) (IdUser u) n (email u) (password u) (Role u) (phoneNumber u)
         (Date u) (Gender u) (Avatar u) (age u) (createAt u) (updatedAt u)
         (IdDoctor u)
  | set_phoneNumber p =>
      mk (_id u) (IdUser u) (name u) (email u) (password u) (Role u) p
         (Date u) (Gender u) (Avatar u) (age u) (createAt u) (updatedAt u)
         (IdDoctor u)
  | set_Avatar a =>
      mk (_id u) (IdUser u) (name u) (email u) (password u) (Role u)
         (phoneNumber u) (Date u) (Gender u) a (age u) (createAt u)
         (updatedAt u) (IdDoctor u)
  end.

Definition apply_update (upd : list Assign) (u : UserType.t) : UserType.t :=
  fold_left (fun acc a => assign a acc) upd u.

(** The first document with the given [_id] is replaced by its update. *)
Fixpoint update_first (id : string) (upd : list Assign)
    (docs : list UserType.t) : list UserType.t :=
  match docs with
  | [] => []
  | u :: rest =>
      if String.eqb (_id u) id then apply_update upd u :: rest
      else u :: update_first id upd rest
  end.

(** Every call first reaches the store; an unreachable store rejects. *)
Definition query {A} (f : World -> A * World) : Async A :=
  fun w =>
    match db_fault w with
    | Some m => throw m w
    | None => let (a, w') := f w in (Fulfilled a, w')
    end.

Definition find : Async (list UserType.t) :=
  query (fun w => (users w, w)).

(** The first document, in the collection's order, that the filter
    matches. *)
Definition lookup (f : Filter) (docs : list UserType.t)
    : option UserType.t :=
  List.find (matches f) docs.

Definition findOne (f : Filter) : Async (option UserType.t) :=
  query (fun w => (lookup f (users w), w)).

(** Whether an id casts to the type of [_id].  The collection holds only
    identifiers the schema produced, so the id of a stored document casts. *)
Definition casts `{UserSchema} (id : string) (docs : list UserType.t) : bool :=
  castId id || existsb (fun u => String.eqb (_id u) id) docs.

(** [findByIdAndUpdate(id, update, { new: true })].  The id is cast before
    the store is asked, and an id that does not cast is rejected with a
    CastError; otherwise the result is the document after the update, or
    [null] when no document has that [_id]. *)
Definition findByIdAndUpdate `{UserSchema} (id : string) (upd : list Assign)
    : Async (option UserType.t) :=
  fun w =>
    if casts id (users w) then
      query (fun w =>
        let docs := update_first id upd (users w) in
        (List.find (fun u => String.eqb (_id u) id) docs, with_users w docs))
        w
    else throw (castError id) w.

(** [new User(userData)] followed by [save()], awaited: the call resolves
    once the document is in the collection. *)
Definition create `{UserSchema} (d : UserData) : Async UserType.t :=
  query (fun w =>
    let n := next_oid w in
    let doc :=
      mk (ObjectId n) (defaultIdUser n) (d_name d) (d_email d)
         (d_password d) (d_Role d) (d_phoneNumber d) (d_Date d)
         (d_Gender d) (d_Avatar d) (d_age d) (d_createAt d)
         (d_updatedAt d) (d_IdDoctor d) in
    (doc,
     mkWorld (users w ++ [doc]) (db_fault w) (env w) (clock w) (entropy w)
             (S n) (errors_logged w) (in_flight w))).

(** The same call when its promise is not awaited: the insert is handed to
    the store and the promise returned at once. *)
Definition create_unawaited (d : UserData) : Async Promise :=
  fun w => (Fulfilled (inserting d), with_in_flight w (in_flight w ++ [d])).

(** The store takes up the oldest insert in flight.  Nobody awaits its
    outcome: when the store rejects it, the document is lost. *)
Definition land `{UserSchema} (w : World) : World :=
  match in_flight w with
  | [] => w
  | d :: rest => snd (create d (with_in_flight w rest))
  end.
End User.

(** ** Password hashing (bcryptjs) *)

(** The core of bcryptjs, as the code uses it: salt generation from a cost
    factor and random input, hashing under a salt, and verification.
    Verification answers [true] or [false], or throws: a stored string of a
    hash's length that is not a bcrypt hash makes it throw. *)
Class BcryptJS : Type := {
  genSaltSync : nat -> nat -> string;
  hashSync : string -> string -> string;
  compareSync : string -> string -> Settled bool
}.

(** A bcrypt hash never reproduces the string that was hashed. *)
Class BcryptOneWay `{BcryptJS} : Prop :=
  hash_not_plain : forall s salt, hashSync s salt <> s.

(** A password verifies against its own hash, under any generated salt. *)
Class BcryptVerifies `{BcryptJS} : Prop :=
  compare_hash :
    forall s n seed,
      compareSync s (hashSync s (genSaltSync n seed)) = Fulfilled true.

Module bcrypt.
Section Bcrypt.
Context `{BcryptJS}.

(** The second argument of [hash]: a cost factor or a ready salt. *)
Inductive SaltArg : Type :=
| rounds (n : nat)
| salt (s : string).

Definition genSalt (n : nat) : Async string :=
  fun w =>
    (Fulfilled (genSaltSync n (entropy w)),
     mkWorld (users w) (db_fault w) (env w) (clock w) (S (entropy w))
             (next_oid w) (errors_logged w) (in_flight w)).

Definition hash (s : string) (arg : SaltArg) : Async string :=
  match arg with
  | rounds n => slt <- genSalt n ;; ret (hashSync s slt)
  | salt slt => ret (hashSync s slt)
  end.

Definition compare (s hashed : string) : Async bool :=
  fun w => (compareSync s hashed, w).
End Bcrypt.
End bcrypt.

(** ** userRepository *)

Module userRepository.
Section Repository.
Context `{BcryptJS} `{UserSchema}.

Definition findAllAsync : Async (list UserType.t) := User.find.

Definition findByIdAsync (IdUser : string) : Async (option UserType.t) :=
  User.findOne (User.by_IdUser IdUser).

Definition findByEmailAsync (email : string) : Async (option UserType.t) :=
  User.findOne (User.by_email email).

Definition createUserAsync (userData : UserData) : Async UserType.t :=
  User.create userData.

(** [createUserAsync(userData)] called without [await], as [register]
    calls it. *)
Definition createUserAsync_unawaited (userData : UserData) : Async Promise :=
  User.create_unawaited userData.

Definition updateUserAsync (id : string) (userData : list User.Assign)
    : Async (option UserType.t) :=
  User.findByIdAndUpdate id userData.

Definition changePasswordAsync (id newPassword : string)
    : Async (option UserType.t) :=
  hashPassword <- bcrypt.hash newPassword (bcrypt.rounds 10) ;;
  User.findByIdAndUpdate id [User.set_password hashPassword].
End Repository.
End userRepository.

(** ** Request and response shapes of the service *)

Record ILoginResponse : Type := mkILoginResponse {
  token : jwt.token;
  refreshToken : jwt.token
}.

Record IRefreshTokenType : Type := mkIRefreshTokenType {
  issuedRefreshToken : jwt.token   (* the field [refreshToken] *)
}.

Record ICheckAccountExited : Type := mkICheckAccountExited {
  isExited : bool
}.

Module IRegisterRequest.
Record t : Type := mk {
  name : string;
  email : string;
  password : string;
  confirmPassword : string
}.
End IRegisterRequest.

(** What [register] puts in its envelope: the promise returned by
    [createUserAsync], which the code does not await. *)
Definition IRegisterResponse : Type := Promise.

(** ** authService *)

Module authService.
Section Service.
Context `{BcryptJS} `{UserSchema}.

Definition login (email password : string)
    : Async (ServiceResponse ILoginResponse) :=
  try_catch
    (user <- userRepository.findByEmailAsync email ;;
     match user with
     | None =>
         ret (mkServiceResponse Failed "Email or Password is not correct"
                None StatusCodes.UNPROCESSABLE_ENTITY)
     | Some user =>
         checkPassword <-
           bcrypt.compare password (UserType.password user) ;;
         if negb checkPassword then
           ret (mkServiceResponse Failed
                  "Email or Password is not correct"
                  None StatusCodes.UNPROCESSABLE_ENTITY)
         else
           let payload := [("id", UserType.IdUser user)] in
           penv <- process_env ;;
           let token :=
             jwt.sign payload
               (or_default (JWT_SECRET penv) "default_secret")
               (jwt.mkSignOptions "1d") in
           let refreshToken :=
             jwt.sign payload
               (or_default (JWT_SECRET penv) "default_secret")
               (jwt.mkSignOptions "2d") in
           ret (mkServiceResponse Success "Login successfully"
                  (Some (mkILoginResponse token refreshToken))
                  StatusCodes.OK)
     end)
    (fun ex_message =>
       let errorMessage := "Error during login: " ++ ex_message in
       _ <- logger.error errorMessage ;;
       ret (mkServiceResponse Failed errorMessage None
              StatusCodes.INTERNAL_SERVER_ERROR)).

Definition loginWeb (email password : string)
    : Async (ServiceResponse ILoginResponse) :=
  try_catch
    (user <- User.findOne (User.by_email email) ;;
     match user with
     | None =>
         ret (mkServiceResponse Failed "Email or Password is not correct"
                None StatusCodes.UNPROCESSABLE_ENTITY)
     | Some user =>
         if negb (String.eqb (UserType.Role user) "client-manager") then
           ret (mkServiceResponse Failed
                  "Email or Password is not correct"
                  None StatusCodes.UNPROCESSABLE_ENTITY)
         else
           validPass <-
             bcrypt.compare password (UserType.password user) ;;
           if negb validPass then
             ret (mkServiceResponse Failed
                    "Email or Password is not correct"
                    None StatusCodes.UNPROCESSABLE_ENTITY)
           else
             penv <- process_env ;;
             let tokenResponse :=
               mkILoginResponse
                 (jwt.sign [("id", UserType.IdUser user)]
                    (or_default (TOKEN_SECRET penv) "default_secret")
                    (jwt.mkSignOptions "1d"))
                 (jwt.sign [("id", UserType.IdUser user)]
                    (or_default (TOKEN_SECRET penv) "default_secret")
                    (jwt.mkSignOptions "2d")) in
             ret (mkServiceResponse Success "Login successfully"
                    (Some tokenResponse) StatusCodes.OK)
     end)
    (fun ex_message =>
       let errorMessage := "Error during login: " ++ ex_message in
       _ <- logger.error errorMessage ;;
       ret (mkServiceResponse Failed errorMessage None
              StatusCodes.INTERNAL_SERVER_ERROR)).

Definition register (req : IRegisterRequest.t)
    : Async (ServiceResponse IRegisterResponse) :=
  try_catch
    (let name := IRegisterRequest.name req in
     let email := IRegisterRequest.email req in
     let password := IRegisterRequest.password req in
     let confirmPassword := IRegisterRequest.confirmPassword req in
     checkEmailExist <- userRepository.findByEmailAsync email ;;
     match checkEmailExist with
     | Some _ =>
         ret (mkServiceResponse Failed "Email is already in use"
                None StatusCodes.UNPROCESSABLE_ENTITY)
     | None =>
         if negb (String.eqb password confirmPassword) then
           ret (mkServiceResponse Failed "Passwords do not match"
                  None StatusCodes.UNPROCESSABLE_ENTITY)
         else
           salt <- bcrypt.genSalt 10 ;;
           hashPassword <- bcrypt.hash password (bcrypt.salt salt) ;;
           createAt <- new_Date ;;
           updatedAt <- new_Date ;;
           newUser <-
             userRepository.createUserAsync_unawaited
               (mkUserData name email hashPassword "client-user"
                  "" "" "" "" "" createAt updatedAt "") ;;
           ret (mkServiceResponse Success "User registered successfully"
                  (Some newUser) StatusCodes.OK)
     end)
    (fun ex_message =>
       let errorMessage := "Error during registration: " ++ ex_message in
       _ <- logger.error errorMessage ;;
       ret (mkServiceResponse Failed errorMessage None
              StatusCodes.INTERNAL_SERVER_ERROR)).

Definition checkEmailExist (email : string)
    : Async (ServiceResponse ICheckAccountExited) :=
  try_catch
    (checkEmailExist <- User.findOne (User.by_email email) ;;
     match checkEmailExist with
     | Some _ =>
         ret (mkServiceResponse Success "Email exists"
                (Some (mkICheckAccountExited true)) StatusCodes.OK)
     | None =>
         ret (mkServiceResponse Success "Email does not exist"
                (Some (mkICheckAccountExited false)) StatusCodes.OK)
     end)
    (fun ex_message =>
       let errorMessage :=
         "Error checking email existence: " ++ ex_message in
       _ <- logger.error errorMessage ;;
       ret (mkServiceResponse Failed errorMessage None
              StatusCodes.INTERNAL_SERVER_ERROR)).

Definition generateRefreshToken (userId : string)
    : Async (ServiceResponse IRefreshTokenType) :=
  try_catch
    (penv <- process_env ;;
     let refreshToken :=
       jwt.sign [("userId", userId)]
         (or_default (TOKEN_SECRET penv) "default_secret")
         (jwt.mkSignOptions "7d") in
     ret (mkServiceResponse Success "Refresh token generated successfully"
            (Some (mkIRefreshTokenType refreshToken)) StatusCodes.OK))
    (fun ex_message =>
       let errorMessage :=
         "Error generating refresh token: " ++ ex_message in
       _ <- logger.error errorMessage ;;
       ret (mkServiceResponse Failed errorMessage None
              StatusCodes.INTERNAL_SERVER_ERROR)).
End Service.
End authService.

(** ** Vocabulary of the statements *)

(** The key [login] signs under, and the key [loginWeb] signs under. *)
Definition login_secret (e : ProcessEnv) : string :=
  or_default (JWT_SECRET e) "default_secret".

Definition web_secret (e : ProcessEnv) : string :=
  or_default (TOKEN_SECRET e) "default_secret".

(** The account, if any, that a lookup by email finds in a world. *)
Definition account (w : World) (email : string) : option UserType.t :=
  User.lookup (User.by_email email) (users w).

(** The one answer to every credential failure. *)
Definition bad_credentials : ServiceResponse ILoginResponse :=
  mkServiceResponse Failed "Email or Password is not correct" None
    StatusCodes.UNPROCESSABLE_ENTITY.

(** The fixed, user-safe messages of the validation failures, and the
    prefixes under which a caught exception is reported. *)
Definition validation_messages : list string :=
  ["Email or Password is not correct"; "Email is already in use";
   "Passwords do not match"].

Definition error_prefixes : list string :=
  ["Error during login: "; "Error during registration: ";
   "Error checking email existence: "; "Error generating refresh token: "].

(** What an operation can catch: the store's rejection, or, the store
    having answered, the rejection of bcrypt's comparison against the
    password of the account the email finds. *)
Definition store_threw (w : World) (m : string) : Prop :=
  db_fault w = Some m.

Definition compare_threw `{BcryptJS} (w : World) (email password m : string)
    : Prop :=
  db_fault w = None /\
  exists u, account w email = Some u
            /\ compareSync password (UserType.password u) = Rejected m.

(** The envelope invariant, read in the world the operation started in and
    against what the operation can catch: Success carries a 2xx code; Failed
    carries no payload, and either 422 with one of the fixed validation
    messages, the store having answered, or 500 with the message of a caught
    error under an operation prefix. *)
Definition envelope_invariant {T} (w : World) (thrown : string -> Prop)
    (r : ServiceResponse T) : Prop :=
  match status r with
  | Success => (200 <= statusCode r < 300)%Z
  | Failed =>
      responseObject r = None /\
      ((statusCode r = 422%Z /\ db_fault w = None
        /\ In (message r) validation_messages) \/
       (statusCode r = 500%Z
        /\ exists pre m, In pre error_prefixes /\ thrown m
                         /\ message r = pre ++ m))
  end.

(** ** A small concrete instance, for evaluating the code *)

Definition demoBcrypt : BcryptJS := {|
  genSaltSync := fun n seed => String (ascii_of_nat (65 + seed)) "";
  hashSync := fun s salt => String "$" (salt ++ "$" ++ s);
  compareSync := fun s hashed =>
    match hashed with
    | String "$" (String _ (String "$" rest)) => Fulfilled (String.eqb rest s)
    | String "!" _ => Rejected "Invalid salt version"
    | _ => Fulfilled false
    end
|}.

Definition demoSchema : UserSchema := {|
  ObjectId := fun n => String (ascii_of_nat (97 + n)) "";
  defaultIdUser := fun n => "U" ++ String (ascii_of_nat (48 + n)) "";
  castId := fun id =>
    match id with
    | String _ EmptyString => true
    | _ => false
    end;
  castError := fun id => "Cast to ObjectId failed for value " ++ id
|}.

Definition alice : UserType.t :=
  UserType.mk "a" "U0" "Alice" "alice@example.com" "$A$secret123"
    "client-manager" "" "" "" "" "" 0 0 "".

Definition bob : UserType.t :=
  UserType.mk "b" "U1" "Bob" "bob@example.com" "$B$hunter2"
    "client-user" "" "" "" "" "" 0 0 "".

Definition demoWorld : World :=
  mkWorld [alice; bob] None
    (mkProcessEnv (Some "login-key") (Some "web-key")) 1700000000 2 2 [] [].

Definition downWorld : World :=
  mkWorld [alice; bob] (Some "connection refused")
    (mkProcessEnv None None) 1700000000 2 2 [] [].

(** ** Vocabulary of the statements on registration and password change *)

(** The object literal [register] hands to [createUserAsync] for a request
    in a world. *)
Definition registration `{BcryptJS} (w : World) (req : IRegisterRequest.t)
    : UserData :=
  mkUserData (IRegisterRequest.name req) (IRegisterRequest.email req)
    (hashSync (IRegisterRequest.password req) (genSaltSync 10 (entropy w)))
    "client-user" "" "" "" "" "" (clock w) (clock w) "".

(** The world an accepted [register] leaves: one salt drawn, the insert in
    flight, the collection as it was. *)
Definition after_register `{BcryptJS} (w : World) (req : IRegisterRequest.t)
    : World :=
  mkWorld (users w) (db_fault w) (env w) (clock w) (S (entropy w))
    (next_oid w) (errors_logged w) (in_flight w ++ [registration w req]).

(** The document the store makes of an insert that lands in a world. *)
Definition document_of `{UserSchema} (w : World) (d : UserData) : UserType.t :=
  UserType.mk (ObjectId (next_oid w)) (defaultIdUser (next_oid w))
    (d_name d) (d_email d) (d_password d) (d_Role d) (d_phoneNumber d)
    (d_Date d) (d_Gender d) (d_Avatar d) (d_age d) (d_createAt d)
    (d_updatedAt d) (d_IdDoctor d).

(** A document seen without its password. *)
Definition without_password (u : UserType.t) : UserType.t :=
  User.assign (User.set_password "") u.

(** A caught error, as every operation reports it. *)
Definition internal_error {T} (msg : string) : ServiceResponse T :=
  mkServiceResponse Failed msg None StatusCodes.INTERNAL_SERVER_ERROR.

(** An outcome that reports a caught error: Failed/500 with [msg] and no
    payload, [msg] appended to the error log, the collection as in [w]. *)
Definition reports_fault {T} (w : World) (msg : string)
    (r : Settled (ServiceResponse T) * World) : Prop :=
  fst r = Fulfilled (internal_error msg)
  /\ errors_logged (snd r) = (errors_logged w ++ [msg])%list
  /\ users (snd r) = users w.

(** A collection in which a second account shares the first one's email. *)
Definition alias : UserType.t :=
  UserType.mk "z" "U9" "Alias" "alice@example.com" "$B$other"
    "client-user" "" "" "" "" "" 0 0 "".

Definition crowdedWorld : World :=
  mkWorld [alice; alias] None
    (mkProcessEnv None (Some "")) 1700000000 2 2 [] [].

(** A collection in which a manager's stored password is not a hash. *)
Definition mallory : UserType.t :=
  UserType.mk "m" "U7" "Mallory" "mallory@example.com" "!not-a-bcrypt-hash"
    "client-manager" "" "" "" "" "" 0 0 "".

Definition garbledWorld : World :=
  mkWorld [alice; mallory] None
    (mkProcessEnv (Some "login-key") (Some "web-key")) 1700000000 2 2 [] [].

Definition carolRequest : IRegisterRequest.t :=
  IRegisterRequest.mk "Carol" "carol@example.com" "pw" "pw".

(** ** Running the code on the concrete instance *)

Example login_alice :
  fst (@authService.login demoBcrypt "alice@example.com" "secret123" demoWorld)
  = Fulfilled (mkServiceResponse Success "Login successfully"
      (Some (mkILoginResponse
         (jwt.mkToken [("id", "U0")] "login-key" (jwt.mkSignOptions "1d"))
         (jwt.mkToken [("id", "U0")] "login-key" (jwt.mkSignOptions "2d"))))
      200%Z).
Proof. reflexivity. Qed.

Example login_alice_wrong :
  @authService.login demoBcrypt "alice@example.com" "wrong" demoWorld
  = (Fulfilled bad_credentials, demoWorld).
Proof. reflexivity. Qed.

Example login_store_down :
  fst (@authService.login demoBcrypt "alice@example.com" "secret123" downWorld)
  = Fulfilled (mkServiceResponse Failed
      "Error during login: connection refused" None 500%Z).
Proof. reflexivity. Qed.

Example login_mallory :
  @authService.login demoBcrypt "mallory@example.com" "anything" garbledWorld
  = (Fulfilled (mkServiceResponse Failed
       "Error during login: Invalid salt version" None 500%Z),
     mkWorld [alice; mallory] None (env garbledWorld) 1700000000 2 2
       ["Error during login: Invalid salt version"] []).
Proof. reflexivity. Qed.

Example loginWeb_bob :
  @authService.loginWeb demoBcrypt "bob@example.com" "hunter2" demoWorld
  = (Fulfilled bad_credentials, demoWorld).
Proof. reflexivity. Qed.

Example register_carol :
  let carol :=
    mkUserData "Carol" "carol@example.com" "$C$pw" "client-user"
      "" "" "" "" "" 1700000000 1700000000 "" in
  @authService.register demoBcrypt carolRequest demoWorld
  = (Fulfilled (mkServiceResponse Success "User registered successfully"
       (Some (inserting carol)) 200%Z),
     mkWorld [alice; bob] None (env demoWorld) 1700000000 3 2 [] [carol]).
Proof. reflexivity. Qed.

Example register_carol_landed :
  @User.land demoSchema
    (snd (@authService.register demoBcrypt carolRequest demoWorld))
  = mkWorld
      [alice; bob;
       UserType.mk "c" "U2" "Carol" "carol@example.com" "$C$pw" "client-user"
         "" "" "" "" "" 1700000000 1700000000 ""]
      None (env demoWorld) 1700000000 3 3 [] [].
Proof. reflexivity. Qed.

Example changePassword_bob :
  users (snd (@userRepository.changePasswordAsync demoBcrypt demoSchema "b"
                "n3w" demoWorld))
  = [alice;
     UserType.mk "b" "U1" "Bob" "bob@example.com" "$C$n3w" "client-user"
       "" "" "" "" "" 0 0 ""].
Proof. reflexivity. Qed.

Example changePassword_malformed_id :
  fst (@userRepository.changePasswordAsync demoBcrypt demoSchema "nobody"
         "n3w" demoWorld)
  = Rejected "Cast to ObjectId failed for value nobody".
Proof. reflexivity. Qed.

(** ** Proof steps for the envelope invariant *)

Ltac validation_failure :=
  unfold envelope_invariant, validation_messages; simpl;
  split; [reflexivity | left; repeat split; auto 6].

Ltac internal_failure pre m thrown :=
  unfold envelope_invariant, error_prefixes; simpl;
  split; [reflexivity | right; split; [reflexivity|];
          exists pre, m;
          split; [simpl; auto 6 | split; [thrown | reflexivity]]].

(** ** Signing keys *)

(** The key handed to [jwt.sign] is never the empty string. *)
Lemma or_default_nonempty (v : option string) (fallback : string) :
  fallback <> "" -> or_default v fallback <> "".
Proof.
  intros Hfb. unfold or_default. destruct v as [s|]; [|exact Hfb].
  destruct (String.eqb s "") eqn:Hs; [exact Hfb | now apply String.eqb_neq].
Qed.

(** ** Lookup in the collection *)

Lemma lookup_by_email_sound (docs : list UserType.t) (e : string)
    (u : UserType.t) :
  User.lookup (User.by_email e) docs = Some u ->
  In u docs /\ UserType.email u = e.
Proof.
  unfold User.lookup. intros Hf.
  apply find_some in Hf. destruct Hf as [Hin Hm].
  split; [exact Hin | now apply String.eqb_eq].
Qed.

Lemma lookup_by_email_absent (docs : list UserType.t) (e : string) :
  User.lookup (User.by_email e) docs = None <->
  (forall u, In u docs -> UserType.email u <> e).
Proof.
  unfold User.lookup. split.
  - intros Hf u Hin Heq.
    pose proof (find_none _ _ Hf u Hin) as Hm. simpl in Hm.
    apply String.eqb_neq in Hm. contradiction.
  - intros Hall. induction docs as [|d docs IH]; [reflexivity|].
    simpl. destruct (String.eqb (UserType.email d) e) eqn:Hd.
    + apply String.eqb_eq in Hd. exfalso. apply (Hall d); [now left | exact Hd].
    + apply IH. intros u Hin. apply Hall. now right.
Qed.

(** With one account per email, a registered user is the one its email
    finds. *)
Lemma lookup_by_email_unique (docs : list UserType.t) (u : UserType.t) :
  NoDup (map UserType.email docs) ->
  In u docs ->
  User.lookup (User.by_email (UserType.email u)) docs = Some u.
Proof.
  unfold User.lookup.
  induction docs as [|d docs IH]; intros Hnd Hin; [destruct Hin|].
  simpl in *. inversion Hnd as [|? ? Hnotin Hnd']; subst.
  destruct Hin as [-> | Hin].
  - now rewrite String.eqb_refl.
  - destruct (String.eqb (UserType.email d) (UserType.email u)) eqn:Hd.
    + apply String.eqb_eq in Hd. exfalso. apply Hnotin. rewrite Hd.
      now apply in_map.
    + now apply IH.
Qed.

(** ** login *)

Section LoginProperties.
Context `{BcryptJS}.

(** What [login] does once the lookup has answered: it follows bcrypt's
    verdict on the password of the account that was found. *)
Lemma login_found (w : World) (e pw : string) (u : UserType.t) :
  db_fault w = None ->
  account w e = Some u ->
  authService.login e pw w =
    match compareSync pw (UserType.password u) with
    | Fulfilled true =>
        (Fulfilled
           (mkServiceResponse Success "Login successfully"
              (Some (mkILoginResponse
                 (jwt.sign [("id", UserType.IdUser u)] (login_secret (env w))
                    (jwt.mkSignOptions "1d"))
                 (jwt.sign [("id", UserType.IdUser u)] (login_secret (env w))
                    (jwt.mkSignOptions "2d"))))
              StatusCodes.OK),
         w)
    | Fulfilled false => (Fulfilled bad_credentials, w)
    | Rejected m =>
        (Fulfilled (internal_error ("Error during login: " ++ m)),
         snd (logger.error ("Error during login: " ++ m) w))
    end.
Proof.
  intros Hdb Hacc. unfold account in Hacc.
  unfold authService.login, userRepository.findByEmailAsync, User.findOne,
    User.query, try_catch, bind, bcrypt.compare, process_env, ret.
  rewrite Hdb, Hacc.
  destruct (compareSync pw (UserType.password u)) as [[|]|m]; reflexivity.
Qed.

Lemma login_absent (w : World) (e pw : string) :
  db_fault w = None ->
  account w e = None ->
  authService.login e pw w = (Fulfilled bad_credentials, w).
Proof.
  intros Hdb Hacc. unfold account in Hacc.
  unfold authService.login, userRepository.findByEmailAsync, User.findOne,
    User.query, try_catch, bind, ret.
  rewrite Hdb, Hacc. reflexivity.
Qed.

Lemma login_store_fault (w : World) (e pw m : string) :
  db_fault w = Some m ->
  authService.login e pw w =
    (Fulfilled (mkServiceResponse Failed ("Error during login: " ++ m) None
                  StatusCodes.INTERNAL_SERVER_ERROR),
     snd (logger.error ("Error during login: " ++ m) w)).
Proof.
  intros Hdb.
  unfold authService.login, userRepository.findByEmailAsync, User.findOne,
    User.query, try_catch, bind, ret.
  rewrite Hdb. reflexivity.
Qed.

(** C1, as the code has it.  In a reachable store, for every registered
    user who is the account a lookup by that user's email returns (the first
    account under the email; every registered user when emails are unique),
    [login] with that email and a password that bcrypt accepts against the
    stored hash returns Success/200 and leaves the world as it was.  The
    payload is an access token with lifetime "1d" (86400 s) and a refresh
    token with lifetime "2d" (172800 s); both carry that user's [IdUser] as
    their [id] claim and are signed under JWT_SECRET when it is set and not
    empty, and under "default_secret" otherwise. *)
Theorem login_issues_token_pair (w : World) (u : UserType.t) (pw : string) :
  db_fault w = None ->
  account w (UserType.email u) = Some u ->
  compareSync pw (UserType.password u) = Fulfilled true ->
  exists access refresh : jwt.token,
    authService.login (UserType.email u) pw w =
      (Fulfilled (mkServiceResponse Success "Login successfully"
                    (Some (mkILoginResponse access refresh)) 200%Z), w)
    /\ jwt.expiresIn (jwt.options access) = "1d"
    /\ jwt.lifetime access = Some 86400%Z
    /\ jwt.expiresIn (jwt.options refresh) = "2d"
    /\ jwt.lifetime refresh = Some 172800%Z
    /\ jwt.verify access (login_secret (env w)) = Some (jwt.decode access)
    /\ jwt.verify refresh (login_secret (env w)) = Some (jwt.decode refresh)
    /\ jwt.get "id" (jwt.decode access) = Some (UserType.IdUser u)
    /\ jwt.get "id" (jwt.decode refresh) = Some (UserType.IdUser u)
    /\ (forall s, JWT_SECRET (env w) = Some s -> s <> "" ->
          jwt.key access = s /\ jwt.key refresh = s)
    /\ (JWT_SECRET (env w) = None \/ JWT_SECRET (env w) = Some "" ->
          jwt.key access = "default_secret"
          /\ jwt.key refresh = "default_secret").
Proof.
  intros Hdb Hacc Hpw.
  exists (jwt.sign [("id", UserType.IdUser u)] (login_secret (env w))
            (jwt.mkSignOptions "1d")),
         (jwt.sign [("id", UserType.IdUser u)] (login_secret (env w))
            (jwt.mkSignOptions "2d")).
  rewrite (login_found w (UserType.email u) pw u Hdb Hacc), Hpw.
  unfold jwt.verify, jwt.sign, jwt.decode. simpl.
  rewrite String.eqb_refl.
  split; [reflexivity|]. do 8 (split; [reflexivity|]).
  unfold login_secret, or_default. split.
  - intros s Hs Hne. rewrite Hs. apply String.eqb_neq in Hne.
    rewrite Hne. split; reflexivity.
  - intros [-> | ->]; split; reflexivity.
Qed.

(** C1, as the spec has it, fails.  [alias] is a registered user of
    [crowdedWorld] and bcrypt accepts "other" against its stored hash, but
    the email is also the one of [alice], who comes first: [login] answers
    Failed/422. *)
Lemma login_rejects_shadowed_registered_user :
  In alias (users crowdedWorld)
  /\ db_fault crowdedWorld = None
  /\ @compareSync demoBcrypt "other" (UserType.password alias)
     = Fulfilled true
  /\ @authService.login demoBcrypt (UserType.email alias) "other" crowdedWorld
     = (Fulfilled (mkServiceResponse Failed "Email or Password is not correct"
                     None 422%Z), crowdedWorld).
Proof.
  split; [right; now left|]. repeat split.
Qed.

(** C2.  In a reachable store, [login] with an email that has no account
    and [login] with an email that has one but a password bcrypt rejects
    return the same envelope: Failed, 422, "Email or Password is not
    correct", no payload, and the world untouched. *)
Theorem login_failures_indistinguishable
    (w : World) (e1 p1 e2 p2 : string) (u : UserType.t) :
  db_fault w = None ->
  account w e1 = None ->
  account w e2 = Some u ->
  compareSync p2 (UserType.password u) = Fulfilled false ->
  authService.login e1 p1 w =
    (Fulfilled (mkServiceResponse Failed "Email or Password is not correct"
                  None 422%Z), w)
  /\ authService.login e2 p2 w = authService.login e1 p1 w.
Proof.
  intros Hdb Habs Hacc Hpw.
  rewrite (login_found w e2 p2 u Hdb Hacc), Hpw.
  rewrite (login_absent w e1 p1 Hdb Habs).
  split; reflexivity.
Qed.
End LoginProperties.

(** ** loginWeb *)

Section LoginWebProperties.
Context `{BcryptJS}.

Lemma loginWeb_found (w : World) (e pw : string) (u : UserType.t) :
  db_fault w = None ->
  account w e = Some u ->
  authService.loginWeb e pw w =
    if String.eqb (UserType.Role u) "client-manager" then
      match compareSync pw (UserType.password u) with
      | Fulfilled true =>
          (Fulfilled
             (mkServiceResponse Success "Login successfully"
                (Some (mkILoginResponse
                   (jwt.sign [("id", UserType.IdUser u)] (web_secret (env w))
                      (jwt.mkSignOptions "1d"))
                   (jwt.sign [("id", UserType.IdUser u)] (web_secret (env w))
                      (jwt.mkSignOptions "2d"))))
                StatusCodes.OK),
           w)
      | Fulfilled false => (Fulfilled bad_credentials, w)
      | Rejected m =>
          (Fulfilled (internal_error ("Error during login: " ++ m)),
           snd (logger.error ("Error during login: " ++ m) w))
      end
    else (Fulfilled bad_credentials, w).
Proof.
  intros Hdb Hacc. unfold account in Hacc.
  unfold authService.loginWeb, User.findOne, User.query, try_catch, bind,
    bcrypt.compare, process_env, ret.
  rewrite Hdb, Hacc.
  destruct (String.eqb (UserType.Role u) "client-manager"); simpl;
    [destruct (compareSync pw (UserType.password u)) as [[|]|m]|];
    reflexivity.
Qed.

Lemma loginWeb_absent (w : World) (e pw : string) :
  db_fault w = None ->
  account w e = None ->
  authService.loginWeb e pw w = (Fulfilled bad_credentials, w).
Proof.
  intros Hdb Hacc. unfold account in Hacc.
  unfold authService.loginWeb, User.findOne, User.query, try_catch, bind,
    ret.
  rewrite Hdb, Hacc. reflexivity.
Qed.

Lemma loginWeb_store_fault (w : World) (e pw m : string) :
  db_fault w = Some m ->
  authService.loginWeb e pw w =
    (Fulfilled (mkServiceResponse Failed ("Error during login: " ++ m) None
                  StatusCodes.INTERNAL_SERVER_ERROR),
     snd (logger.error ("Error during login: " ++ m) w)).
Proof.
  intros Hdb.
  unfold authService.loginWeb, User.findOne, User.query, try_catch, bind,
    ret.
  rewrite Hdb. reflexivity.
Qed.

(** C3.  [loginWeb] answers Success only for an account whose role is
    "client-manager"; and in a reachable store, for an account whose
    password bcrypt accepts but whose role is anything else, it answers
    Failed/422 "Email or Password is not correct", which is also its answer
    to an unknown email and to a manager's wrong password. *)
Theorem loginWeb_manager_only (w : World) (e pw : string) :
  (forall r w',
      authService.loginWeb e pw w = (Fulfilled r, w') ->
      status r = Success ->
      exists u, account w e = Some u
                /\ UserType.Role u = "client-manager") /\
  (forall u,
      db_fault w = None ->
      account w e = Some u ->
      compareSync pw (UserType.password u) = Fulfilled true ->
      UserType.Role u <> "client-manager" ->
      authService.loginWeb e pw w =
        (Fulfilled (mkServiceResponse Failed
                      "Email or Password is not correct" None 422%Z), w)
      /\ (forall e' pw',
             account w e' = None ->
             authService.loginWeb e' pw' w = authService.loginWeb e pw w)
      /\ (forall e' pw' m,
             account w e' = Some m ->
             UserType.Role m = "client-manager" ->
             compareSync pw' (UserType.password m) = Fulfilled false ->
             authService.loginWeb e' pw' w = authService.loginWeb e pw w)).
Proof.
  split.
  - intros r w' Hrun Hok.
    destruct (db_fault w) as [m|] eqn:Hdb.
    + rewrite (loginWeb_store_fault w e pw m Hdb) in Hrun.
      inversion Hrun; subst. discriminate Hok.
    + destruct (account w e) as [u|] eqn:Hacc.
      * rewrite (loginWeb_found w e pw u Hdb Hacc) in Hrun.
        exists u. split; [reflexivity|].
        destruct (String.eqb (UserType.Role u) "client-manager") eqn:Hrole.
        -- now apply String.eqb_eq.
        -- inversion Hrun; subst. discriminate Hok.
      * rewrite (loginWeb_absent w e pw Hdb Hacc) in Hrun.
        inversion Hrun; subst. discriminate Hok.
  - intros u Hdb Hacc Hpw Hrole.
    apply String.eqb_neq in Hrole.
    rewrite (loginWeb_found w e pw u Hdb Hacc), Hrole.
    split; [reflexivity|]. split.
    + intros e' pw' Habs. now rewrite (loginWeb_absent w e' pw' Hdb Habs).
    + intros e' pw' m Hacc' Hrole' Hpw'.
      rewrite (loginWeb_found w e' pw' m Hdb Hacc'), Hrole', Hpw'.
      reflexivity.
Qed.

(** C10.  In a reachable store, for an account whose role is not
    "client-manager", [loginWeb] gives the same result whatever password it
    is called with: Failed/422 "Email or Password is not correct", world
    untouched.  The role is tested before the password is looked at. *)
Theorem loginWeb_non_manager_ignores_password
    (w : World) (e : string) (u : UserType.t) :
  db_fault w = None ->
  account w e = Some u ->
  UserType.Role u <> "client-manager" ->
  forall pw,
    authService.loginWeb e pw w =
      (Fulfilled (mkServiceResponse Failed
                    "Email or Password is not correct" None 422%Z), w).
Proof.
  intros Hdb Hacc Hrole pw.
  apply String.eqb_neq in Hrole.
  rewrite (loginWeb_found w e pw u Hdb Hacc), Hrole. reflexivity.
Qed.
End LoginWebProperties.

(** ** register *)

Section RegisterProperties.
Context `{BcryptJS}.

Lemma register_existing (w : World) (req : IRegisterRequest.t)
    (u : UserType.t) :
  db_fault w = None ->
  account w (IRegisterRequest.email req) = Some u ->
  authService.register req w =
    (Fulfilled (mkServiceResponse Failed "Email is already in use" None
                  StatusCodes.UNPROCESSABLE_ENTITY), w).
Proof.
  intros Hdb Hacc. unfold account in Hacc.
  unfold authService.register, userRepository.findByEmailAsync,
    User.findOne, User.query, try_catch, bind, ret.
  rewrite Hdb, Hacc. reflexivity.
Qed.

(** C4.  In a reachable store, a [register] request whose email already has
    an account and whose password differs from its confirmation is
    answered Failed/422 "Email is already in use": the existence check
    comes first.  Nothing is written. *)
Theorem register_duplicate_wins (w : World) (req : IRegisterRequest.t)
    (u : UserType.t) :
  db_fault w = None ->
  account w (IRegisterRequest.email req) = Some u ->
  IRegisterRequest.password req <> IRegisterRequest.confirmPassword req ->
  authService.register req w =
    (Fulfilled (mkServiceResponse Failed "Email is already in use" None
                  422%Z), w).
Proof.
  intros Hdb Hacc _. exact (register_existing w req u Hdb Hacc).
Qed.

Lemma register_mismatch (w : World) (req : IRegisterRequest.t) :
  db_fault w = None ->
  account w (IRegisterRequest.email req) = None ->
  String.eqb (IRegisterRequest.password req)
    (IRegisterRequest.confirmPassword req) = false ->
  authService.register req w =
    (Fulfilled (mkServiceResponse Failed "Passwords do not match" None
                  StatusCodes.UNPROCESSABLE_ENTITY), w).
Proof.
  intros Hdb Hacc Hneq. unfold account in Hacc.
  unfold authService.register, userRepository.findByEmailAsync,
    User.findOne, User.query, try_catch, bind, ret.
  rewrite Hdb, Hacc, Hneq. reflexivity.
Qed.

(** C5.  In a reachable store, a [register] request whose email has no
    account and whose password differs from its confirmation is answered
    Failed/422 "Passwords do not match", and the world it leaves, the
    collection included, is the world it found. *)
Theorem register_mismatch_no_write (w : World) (req : IRegisterRequest.t) :
  db_fault w = None ->
  account w (IRegisterRequest.email req) = None ->
  IRegisterRequest.password req <> IRegisterRequest.confirmPassword req ->
  authService.register req w =
    (Fulfilled (mkServiceResponse Failed "Passwords do not match" None
                  422%Z), w)
  /\ users (snd (authService.register req w)) = users w.
Proof.
  intros Hdb Hacc Hneq. apply String.eqb_neq in Hneq.
  rewrite (register_mismatch w req Hdb Hacc Hneq).
  split; reflexivity.
Qed.
End RegisterProperties.

(** ** generateRefreshToken *)

Lemma generateRefreshToken_run (w : World) (userId : string) :
  authService.generateRefreshToken userId w =
    (Fulfilled
       (mkServiceResponse Success "Refresh token generated successfully"
          (Some (mkIRefreshTokenType
             (jwt.sign [("userId", userId)] (web_secret (env w))
                (jwt.mkSignOptions "7d"))))
          StatusCodes.OK),
     w).
Proof. reflexivity. Qed.

(** C6, as the code has it.  For every [userId] and every world, whatever the
    collection holds and whether or not the store is reachable,
    [generateRefreshToken] returns Success/200 with a refresh token whose
    [userId] claim is the input and whose lifetime is "7d" (604800 s); the
    token verifies
    under TOKEN_SECRET (or its default), the key [loginWeb] signs with, and
    under the key of [login] only when the two keys coincide. *)
Theorem generateRefreshToken_signs_with_web_secret
    (w : World) (userId : string) :
  exists t : jwt.token,
    authService.generateRefreshToken userId w =
      (Fulfilled
         (mkServiceResponse Success "Refresh token generated successfully"
            (Some (mkIRefreshTokenType t)) 200%Z), w)
    /\ jwt.get "userId" (jwt.decode t) = Some userId
    /\ jwt.expiresIn (jwt.options t) = "7d"
    /\ jwt.lifetime t = Some 604800%Z
    /\ jwt.verify t (web_secret (env w)) = Some (jwt.decode t)
    /\ (jwt.verify t (login_secret (env w)) = Some (jwt.decode t) <->
        login_secret (env w) = web_secret (env w)).
Proof.
  exists (jwt.sign [("userId", userId)] (web_secret (env w))
            (jwt.mkSignOptions "7d")).
  rewrite generateRefreshToken_run.
  unfold jwt.verify, jwt.sign, jwt.decode. simpl.
  rewrite String.eqb_refl. repeat split; try reflexivity.
  - intros Hv.
    destruct (String.eqb (web_secret (env w)) (login_secret (env w))) eqn:He;
      [symmetry; now apply String.eqb_eq | discriminate Hv].
  - intros ->. now rewrite String.eqb_refl.
Qed.

(** C6, as the spec has it, fails.  With JWT_SECRET = "login-key" and
    TOKEN_SECRET = "web-key" the token issued for an id no account has is
    rejected under the key [login] signs with, and accepted under the key of
    [loginWeb]. *)
Lemma generateRefreshToken_not_login_secret :
  exists t : jwt.token,
    authService.generateRefreshToken "no-such-user" demoWorld =
      (Fulfilled
         (mkServiceResponse Success "Refresh token generated successfully"
            (Some (mkIRefreshTokenType t)) 200%Z), demoWorld)
    /\ login_secret (env demoWorld) = "login-key"
    /\ jwt.verify t (login_secret (env demoWorld)) = None
    /\ jwt.verify t (web_secret (env demoWorld))
       = Some [("userId", "no-such-user")].
Proof.
  eexists. split; [reflexivity|]. repeat split; reflexivity.
Qed.

(** ** checkEmailExist *)

Lemma checkEmailExist_reachable (w : World) (e : string) :
  db_fault w = None ->
  authService.checkEmailExist e w =
    (Fulfilled
       (match account w e with
        | Some _ =>
            mkServiceResponse Success "Email exists"
              (Some (mkICheckAccountExited true)) StatusCodes.OK
        | None =>
            mkServiceResponse Success "Email does not exist"
              (Some (mkICheckAccountExited false)) StatusCodes.OK
        end),
     w).
Proof.
  intros Hdb.
  unfold authService.checkEmailExist, User.findOne, User.query, try_catch,
    bind, ret, account.
  rewrite Hdb.
  destruct (User.lookup (User.by_email e) (users w)); reflexivity.
Qed.

Lemma checkEmailExist_store_fault (w : World) (e m : string) :
  db_fault w = Some m ->
  authService.checkEmailExist e w =
    (Fulfilled
       (mkServiceResponse Failed ("Error checking email existence: " ++ m)
          None StatusCodes.INTERNAL_SERVER_ERROR),
     snd (logger.error ("Error checking email existence: " ++ m) w)).
Proof.
  intros Hdb.
  unfold authService.checkEmailExist, User.findOne, User.query, try_catch,
    bind, ret.
  rewrite Hdb. reflexivity.
Qed.

(** C7.  For every email: when the store is reachable, [checkEmailExist]
    returns Success/200 with a boolean payload that is [true] exactly when
    some account of the collection has that email, and changes nothing; when
    the store rejects with message [m], it returns Failed/500 without payload,
    reporting [m]; and it returns Failed in no other case. *)
Theorem checkEmailExist_probe (w : World) (e : string) :
  (db_fault w = None ->
   exists msg b,
     authService.checkEmailExist e w =
       (Fulfilled (mkServiceResponse Success msg
                     (Some (mkICheckAccountExited b)) 200%Z), w)
     /\ (b = true <-> exists u, In u (users w) /\ UserType.email u = e)) /\
  (forall m,
     db_fault w = Some m ->
     authService.checkEmailExist e w =
       (Fulfilled (mkServiceResponse Failed
                     ("Error checking email existence: " ++ m) None 500%Z),
        snd (logger.error ("Error checking email existence: " ++ m) w))) /\
  (forall r w',
     authService.checkEmailExist e w = (Fulfilled r, w') ->
     status r = Failed ->
     statusCode r = 500%Z /\ db_fault w <> None).
Proof.
  split; [|split].
  - intros Hdb. rewrite (checkEmailExist_reachable w e Hdb).
    destruct (account w e) as [u|] eqn:Hacc.
    + exists "Email exists", true. split; [reflexivity|].
      split; [intros _|reflexivity].
      exists u. now apply lookup_by_email_sound.
    + exists "Email does not exist", false. split; [reflexivity|].
      split; [discriminate|]. intros [u [Hin He]].
      exfalso. exact (proj1 (lookup_by_email_absent (users w) e) Hacc u Hin He).
  - intros m Hdb. exact (checkEmailExist_store_fault w e m Hdb).
  - intros r w' Hrun Hfailed.
    destruct (db_fault w) as [m|] eqn:Hdb.
    + rewrite (checkEmailExist_store_fault w e m Hdb) in Hrun.
      inversion Hrun; subst. split; [reflexivity | discriminate].
    + rewrite (checkEmailExist_reachable w e Hdb) in Hrun.
      destruct (account w e); inversion Hrun; subst; discriminate Hfailed.
Qed.


(** ** The envelope invariant over the five operations *)

Section EnvelopeProperties.
Context `{BcryptJS}.

Lemma register_store_fault (w : World) (req : IRegisterRequest.t)
    (m : string) :
  db_fault w = Some m ->
  authService.register req w =
    (Fulfilled
       (mkServiceResponse Failed ("Error during registration: " ++ m) None
          StatusCodes.INTERNAL_SERVER_ERROR),
     snd (logger.error ("Error during registration: " ++ m) w)).
Proof.
  intros Hdb.
  unfold authService.register, userRepository.findByEmailAsync,
    User.findOne, User.query, try_catch, bind, ret.
  rewrite Hdb. reflexivity.
Qed.

(** The path of [register] that starts a write: the promise of the insert
    is the payload, the insert is in flight, the collection is as before. *)
Lemma register_fresh_run (w : World) (req : IRegisterRequest.t) :
  db_fault w = None ->
  account w (IRegisterRequest.email req) = None ->
  IRegisterRequest.password req = IRegisterRequest.confirmPassword req ->
  authService.register req w =
    (Fulfilled (mkServiceResponse Success "User registered successfully"
                  (Some (inserting (registration w req))) StatusCodes.OK),
     after_register w req).
Proof.
  intros Hdb Hacc Heq. unfold account in Hacc.
  apply String.eqb_eq in Heq.
  unfold authService.register, userRepository.findByEmailAsync,
    userRepository.createUserAsync_unawaited, User.findOne,
    User.create_unawaited, User.query, try_catch, bind, ret, new_Date,
    bcrypt.hash, bcrypt.genSalt, after_register, registration,
    with_in_flight.
  rewrite Hacc, Heq, Hdb. simpl. rewrite ?Hdb. reflexivity.
Qed.

(** C8.  Each of the five operations always resolves with an envelope, and
    that envelope satisfies the invariant: a Success carries a code in the
    200 range; a Failed carries no payload and either 422 with a fixed
    validation message, the store having answered, or 500 with the message
    of the error the operation caught under the operation's prefix.  What
    [login] and [loginWeb] can catch is the store's rejection or the
    rejection of bcrypt's comparison; [register] and [checkEmailExist], the
    store's rejection; [generateRefreshToken], nothing. *)
Theorem envelopes_well_formed (w : World) :
  (forall e pw, exists r w',
      authService.login e pw w = (Fulfilled r, w')
      /\ envelope_invariant w
           (fun m => store_threw w m \/ compare_threw w e pw m) r) /\
  (forall e pw, exists r w',
      authService.loginWeb e pw w = (Fulfilled r, w')
      /\ envelope_invariant w
           (fun m => store_threw w m \/ compare_threw w e pw m) r) /\
  (forall req, exists r w',
      authService.register req w = (Fulfilled r, w')
      /\ envelope_invariant w (store_threw w) r) /\
  (forall e, exists r w',
      authService.checkEmailExist e w = (Fulfilled r, w')
      /\ envelope_invariant w (store_threw w) r) /\
  (forall userId, exists r w',
      authService.generateRefreshToken userId w = (Fulfilled r, w')
      /\ envelope_invariant w (fun _ => False) r).
Proof.
  destruct (db_fault w) as [m|] eqn:Hdb;
    refine (conj _ (conj _ (conj _ (conj _ _)))).
  - intros e pw. rewrite (login_store_fault w e pw m Hdb).
    eexists. eexists. split; [reflexivity|].
    internal_failure "Error during login: " m ltac:(left; exact Hdb).
  - intros e pw. rewrite (loginWeb_store_fault w e pw m Hdb).
    eexists. eexists. split; [reflexivity|].
    internal_failure "Error during login: " m ltac:(left; exact Hdb).
  - intros req. rewrite (register_store_fault w req m Hdb).
    eexists. eexists. split; [reflexivity|].
    internal_failure "Error during registration: " m ltac:(exact Hdb).
  - intros e. rewrite (checkEmailExist_store_fault w e m Hdb).
    eexists. eexists. split; [reflexivity|].
    internal_failure "Error checking email existence: " m ltac:(exact Hdb).
  - intros userId. rewrite generateRefreshToken_run.
    eexists. eexists. split; [reflexivity|].
    unfold envelope_invariant, StatusCodes.OK. simpl. lia.
  - intros e pw. destruct (account w e) as [u|] eqn:Hacc.
    + rewrite (login_found w e pw u Hdb Hacc).
      destruct (compareSync pw (UserType.password u)) as [[|]|m] eqn:Hpw;
        eexists; eexists; (split; [reflexivity|]).
      * unfold envelope_invariant, StatusCodes.OK. simpl. lia.
      * validation_failure.
      * internal_failure "Error during login: " m
          ltac:(right; split; [exact Hdb | exists u; split; assumption]).
    + rewrite (login_absent w e pw Hdb Hacc).
      eexists. eexists. split; [reflexivity|]. validation_failure.
  - intros e pw. destruct (account w e) as [u|] eqn:Hacc.
    + rewrite (loginWeb_found w e pw u Hdb Hacc).
      destruct (String.eqb (UserType.Role u) "client-manager");
        [destruct (compareSync pw (UserType.password u)) as [[|]|m] eqn:Hpw|];
        eexists; eexists; (split; [reflexivity|]).
      * unfold envelope_invariant, StatusCodes.OK. simpl. lia.
      * validation_failure.
      * internal_failure "Error during login: " m
          ltac:(right; split; [exact Hdb | exists u; split; assumption]).
      * validation_failure.
    + rewrite (loginWeb_absent w e pw Hdb Hacc).
      eexists. eexists. split; [reflexivity|]. validation_failure.
  - intros req.
    destruct (account w (IRegisterRequest.email req)) as [u|] eqn:Hacc.
    + rewrite (register_existing w req u Hdb Hacc).
      eexists. eexists. split; [reflexivity|]. validation_failure.
    + destruct (String.eqb (IRegisterRequest.password req)
                  (IRegisterRequest.confirmPassword req)) eqn:Hpw.
      * apply String.eqb_eq in Hpw.
        rewrite (register_fresh_run w req Hdb Hacc Hpw).
        eexists. eexists. split; [reflexivity|].
        unfold envelope_invariant, StatusCodes.OK. simpl. lia.
      * rewrite (register_mismatch w req Hdb Hacc Hpw).
        eexists. eexists. split; [reflexivity|]. validation_failure.
  - intros e. rewrite (checkEmailExist_reachable w e Hdb).
    eexists. eexists. split; [reflexivity|].
    destruct (account w e);
      unfold envelope_invariant, StatusCodes.OK; simpl; lia.
  - intros userId. rewrite generateRefreshToken_run.
    eexists. eexists. split; [reflexivity|].
    unfold envelope_invariant, StatusCodes.OK. simpl. lia.
Qed.
End EnvelopeProperties.

(** ** changePasswordAsync *)

Lemma update_first_origin (id : string) (upd : list User.Assign)
    (docs : list UserType.t) (u' : UserType.t) :
  In u' (User.update_first id upd docs) ->
  In u' docs \/
  exists u, In u docs /\ UserType._id u = id /\ u' = User.apply_update upd u.
Proof.
  induction docs as [|d docs IH]; simpl; [tauto|].
  destruct (String.eqb (UserType._id d) id) eqn:Hd; simpl.
  - intros [<- | Hin].
    + right. exists d. apply String.eqb_eq in Hd. auto.
    + left. now right.
  - intros [<- | Hin]; [left; now left|].
    destruct (IH Hin) as [Hold | [u [Hu [Hid Heq]]]].
    + left. now right.
    + right. exists u. auto.
Qed.

Lemma update_first_password_found (id h : string) (docs : list UserType.t)
    (u : UserType.t) :
  List.find (fun d => String.eqb (UserType._id d) id) docs = Some u ->
  List.find (fun d => String.eqb (UserType._id d) id)
    (User.update_first id [User.set_password h] docs)
  = Some (User.assign (User.set_password h) u)
  /\ In (User.assign (User.set_password h) u)
        (User.update_first id [User.set_password h] docs).
Proof.
  induction docs as [|d docs IH]; simpl; [discriminate|].
  destruct (String.eqb (UserType._id d) id) eqn:Hd.
  - intros [= ->]. simpl. rewrite Hd. split; [reflexivity | now left].
  - intros Hf. simpl. rewrite Hd. destruct (IH Hf) as [Hfind Hin].
    split; [exact Hfind | now right].
Qed.

Lemma update_first_absent (id : string) (upd : list User.Assign)
    (docs : list UserType.t) :
  List.find (fun d => String.eqb (UserType._id d) id) docs = None ->
  User.update_first id upd docs = docs.
Proof.
  induction docs as [|d docs IH]; simpl; [reflexivity|].
  destruct (String.eqb (UserType._id d) id); [discriminate|].
  intros Hf. now rewrite (IH Hf).
Qed.

Lemma casts_of_found `{UserSchema} (id : string) (docs : list UserType.t)
    (u : UserType.t) :
  List.find (fun d => String.eqb (UserType._id d) id) docs = Some u ->
  User.casts id docs = true.
Proof.
  intros Hfind. unfold User.casts. apply orb_true_iff. right.
  apply existsb_exists. exists u. exact (find_some _ _ Hfind).
Qed.

Section ChangePasswordProperties.
Context `{BcryptJS} `{UserSchema}.

Lemma changePasswordAsync_reachable (w : World) (id newPassword : string) :
  db_fault w = None ->
  User.casts id (users w) = true ->
  let h := hashSync newPassword (genSaltSync 10 (entropy w)) in
  let docs := User.update_first id [User.set_password h] (users w) in
  userRepository.changePasswordAsync id newPassword w =
    (Fulfilled (List.find (fun d => String.eqb (UserType._id d) id) docs),
     mkWorld docs (db_fault w) (env w) (clock w) (S (entropy w)) (next_oid w)
       (errors_logged w) (in_flight w)).
Proof.
  intros Hdb Hcast.
  unfold userRepository.changePasswordAsync, User.findByIdAndUpdate,
    User.query, bind, ret, bcrypt.hash, bcrypt.genSalt, with_users.
  simpl. rewrite Hcast, Hdb. reflexivity.
Qed.

Lemma changePasswordAsync_store_fault (w : World) (id newPassword m : string) :
  db_fault w = Some m ->
  User.casts id (users w) = true ->
  fst (userRepository.changePasswordAsync id newPassword w) = Rejected m
  /\ users (snd (userRepository.changePasswordAsync id newPassword w))
     = users w.
Proof.
  intros Hdb Hcast.
  unfold userRepository.changePasswordAsync, User.findByIdAndUpdate,
    User.query, bind, ret, throw, bcrypt.hash, bcrypt.genSalt.
  simpl. rewrite Hcast, Hdb. split; reflexivity.
Qed.

Lemma changePasswordAsync_cast_error (w : World) (id newPassword : string) :
  User.casts id (users w) = false ->
  fst (userRepository.changePasswordAsync id newPassword w)
  = Rejected (castError id)
  /\ users (snd (userRepository.changePasswordAsync id newPassword w))
     = users w.
Proof.
  intros Hcast.
  unfold userRepository.changePasswordAsync, User.findByIdAndUpdate,
    bind, ret, throw, bcrypt.hash, bcrypt.genSalt.
  simpl. rewrite Hcast. split; reflexivity.
Qed.

(** C9.  [changePasswordAsync] hashes the new password under a salt
    generated with cost factor 10 and persists that hash: writing [h] for it,
    [h] is not the plaintext (bcrypt being one-way); every document of the
    collection afterwards is either a document that was there before or the
    document with the given [_id] holding [h] as its password; and in a
    reachable store the document with that [_id], when there is one, is
    returned with [h] as its password and is in the collection. *)
Theorem changePasswordAsync_persists_hash `{!BcryptOneWay}
    (w : World) (id newPassword : string) :
  let h := hashSync newPassword (genSaltSync 10 (entropy w)) in
  let after := userRepository.changePasswordAsync id newPassword w in
  h <> newPassword /\
  (forall u',
      In u' (users (snd after)) ->
      In u' (users w) \/ (UserType._id u' = id /\ UserType.password u' = h)) /\
  (forall u,
      db_fault w = None ->
      List.find (fun d => String.eqb (UserType._id d) id) (users w) = Some u ->
      fst after = Fulfilled (Some (User.assign (User.set_password h) u))
      /\ In (User.assign (User.set_password h) u) (users (snd after))
      /\ UserType.password (User.assign (User.set_password h) u) = h).
Proof.
  intros h after. split; [apply hash_not_plain|]. split.
  - intros u' Hin. subst after.
    destruct (User.casts id (users w)) eqn:Hcast.
    + destruct (db_fault w) as [m|] eqn:Hdb.
      * destruct (changePasswordAsync_store_fault w id newPassword m Hdb
                    Hcast) as [_ Hsame].
        rewrite Hsame in Hin. now left.
      * rewrite (changePasswordAsync_reachable w id newPassword Hdb Hcast)
          in Hin.
        simpl in Hin. apply update_first_origin in Hin.
        destruct Hin as [Hold | [u [Hu [Hid ->]]]]; [now left|].
        right. split; [exact Hid | reflexivity].
    + destruct (changePasswordAsync_cast_error w id newPassword Hcast)
        as [_ Hsame].
      rewrite Hsame in Hin. now left.
  - intros u Hdb Hfind. subst after.
    rewrite (changePasswordAsync_reachable w id newPassword Hdb
               (casts_of_found id (users w) u Hfind)).
    simpl.
    destruct (update_first_password_found id h (users w) u Hfind)
      as [Hfound Hin].
    fold h. rewrite Hfound. repeat split. exact Hin.
Qed.
End ChangePasswordProperties.

(** ** Registration: the insert in flight and its landing *)

Lemma lookup_snoc (f : User.Filter) (docs : list UserType.t)
    (d : UserType.t) :
  User.lookup f (docs ++ [d]) =
    match User.lookup f docs with
    | Some u => Some u
    | None => if User.matches f d then Some d else None
    end.
Proof.
  unfold User.lookup. induction docs as [|x docs IH]; simpl.
  - destruct (User.matches f d); reflexivity.
  - destruct (User.matches f x); [reflexivity | exact IH].
Qed.
Section RegistrationFlow.
Context `{BcryptJS} `{UserSchema}.

Lemma land_one (w : World) (d : UserData) (rest : list UserData) :
  db_fault w = None ->
  in_flight w = d :: rest ->
  User.land w =
    mkWorld (users w ++ [document_of w d]) (db_fault w) (env w) (clock w)
      (entropy w) (S (next_oid w)) (errors_logged w) rest.
Proof.
  intros Hdb Hfl. unfold User.land, User.create, User.query, with_in_flight.
  rewrite Hfl. simpl. rewrite Hdb. reflexivity.
Qed.

Lemma land_idle (w : World) : in_flight w = [] -> User.land w = w.
Proof. intros Hfl. unfold User.land. now rewrite Hfl. Qed.

Lemma land_after_register (w : World) (req : IRegisterRequest.t) :
  db_fault w = None ->
  in_flight w = [] ->
  User.land (after_register w req) =
    mkWorld (users w ++ [document_of w (registration w req)]) (db_fault w)
      (env w) (clock w) (S (entropy w)) (S (next_oid w)) (errors_logged w) [].
Proof.
  intros Hdb Hfl.
  rewrite (land_one (after_register w req) (registration w req) []).
  - reflexivity.
  - exact Hdb.
  - unfold after_register. simpl. now rewrite Hfl.
Qed.

Lemma account_after_landing (w : World) (req : IRegisterRequest.t)
    (e : string) :
  db_fault w = None ->
  in_flight w = [] ->
  account (User.land (after_register w req)) e =
    match account w e with
    | Some u => Some u
    | None =>
        if String.eqb (IRegisterRequest.email req) e
        then Some (document_of w (registration w req)) else None
    end.
Proof.
  intros Hdb Hfl. rewrite (land_after_register w req Hdb Hfl).
  unfold account. simpl. now rewrite lookup_snoc.
Qed.

(** X1.  In a reachable store, a request with an unused email and a
    password equal to its confirmation is answered Success/200 with the
    promise of an insert that is not awaited: when [register] returns, the
    collection is as it was and the insert is in flight, nothing is logged,
    and the data to insert are the request's name and email, the role
    "client-user", empty profile fields, the current time twice, and as
    password the bcrypt hash of the request's password under a cost-10
    salt.  With no other insert in flight, its landing appends one document
    carrying that email, role and hash. *)
Theorem register_starts_insert (w : World) (req : IRegisterRequest.t) :
  db_fault w = None ->
  account w (IRegisterRequest.email req) = None ->
  IRegisterRequest.password req = IRegisterRequest.confirmPassword req ->
  exists d w',
    authService.register req w =
      (Fulfilled (mkServiceResponse Success "User registered successfully"
                    (Some (inserting d)) 200%Z), w')
    /\ users w' = users w
    /\ in_flight w' = (in_flight w ++ [d])%list
    /\ errors_logged w' = errors_logged w
    /\ d_name d = IRegisterRequest.name req
    /\ d_email d = IRegisterRequest.email req
    /\ d_Role d = "client-user"
    /\ d_password d =
         hashSync (IRegisterRequest.password req) (genSaltSync 10 (entropy w))
    /\ (d_phoneNumber d, d_Date d, d_Gender d, d_Avatar d, d_age d,
        d_IdDoctor d) = ("", "", "", "", "", "")
    /\ d_createAt d = clock w
    /\ d_updatedAt d = clock w
    /\ (in_flight w = [] ->
        exists doc,
          users (User.land w') = (users w ++ [doc])%list
          /\ UserType.email doc = d_email d
          /\ UserType.Role doc = d_Role d
          /\ UserType.password doc = d_password d).
Proof.
  intros Hdb Hacc Heq.
  exists (registration w req), (after_register w req).
  rewrite (register_fresh_run w req Hdb Hacc Heq).
  do 11 (split; [reflexivity|]).
  intros Hfl. exists (document_of w (registration w req)).
  rewrite (land_after_register w req Hdb Hfl). repeat split.
Qed.

(** X2.  [register] is not atomic.  After an accepted request, with the
    store reachable and no other insert in flight: once the insert has
    landed, any further request under the same email is answered Failed/422
    "Email is already in use" and starts nothing; but a further request with
    matching passwords made before the insert has landed is accepted too,
    and when both inserts have landed the collection holds two more
    documents, both under that email. *)
Theorem register_twice (w : World) (req again : IRegisterRequest.t) :
  db_fault w = None ->
  in_flight w = [] ->
  account w (IRegisterRequest.email req) = None ->
  IRegisterRequest.password req = IRegisterRequest.confirmPassword req ->
  IRegisterRequest.email again = IRegisterRequest.email req ->
  let w1 := snd (authService.register req w) in
  authService.register again (User.land w1) =
    (Fulfilled (mkServiceResponse Failed "Email is already in use" None
                  422%Z), User.land w1)
  /\ (IRegisterRequest.password again = IRegisterRequest.confirmPassword again ->
      exists p w2 d1 d2,
        authService.register again w1 =
          (Fulfilled (mkServiceResponse Success "User registered successfully"
                        (Some p) 200%Z), w2)
        /\ users (User.land (User.land w2)) = (users w ++ [d1; d2])%list
        /\ UserType.email d1 = IRegisterRequest.email req
        /\ UserType.email d2 = IRegisterRequest.email req).
Proof.
  intros Hdb Hfl Hacc Heq Hsame w1. subst w1.
  rewrite (register_fresh_run w req Hdb Hacc Heq). simpl. split.
  - apply (register_existing (User.land (after_register w req)) again
             (document_of w (registration w req))).
    + now rewrite (land_after_register w req Hdb Hfl).
    + rewrite (account_after_landing w req _ Hdb Hfl), Hsame, Hacc.
      now rewrite String.eqb_refl.
  - intros Heq2.
    assert (Hacc1 : account (after_register w req)
                      (IRegisterRequest.email again) = None)
      by (rewrite Hsame; exact Hacc).
    rewrite (register_fresh_run (after_register w req) again Hdb Hacc1 Heq2).
    eexists. eexists.
    exists (document_of w (registration w req)).
    exists (document_of (User.land (after_register w req))
              (registration (after_register w req) again)).
    split; [reflexivity|].
    set (w1 := after_register w req).
    rewrite (land_one (after_register w1 again) (registration w req)
               [registration w1 again]);
      [| exact Hdb | unfold after_register; simpl; now rewrite Hfl].
    rewrite (land_one _ (registration w1 again) []);
      [| exact Hdb | reflexivity].
    simpl. rewrite <- app_assoc. simpl.
    split; [|split; [reflexivity | exact Hsame]].
    unfold w1. rewrite (land_after_register w req Hdb Hfl). reflexivity.
Qed.
End RegistrationFlow.

Lemma NoDup_snoc {A} (l : list A) (a : A) :
  NoDup l -> ~ In a l -> NoDup (l ++ [a])%list.
Proof.
  induction l as [|x l IH]; simpl; intros Hnd Hnotin.
  - constructor; [tauto | constructor].
  - inversion Hnd as [|? ? Hx Hl]; subst. constructor.
    + rewrite in_app_iff. simpl. intros [Hin | [Heq | []]].
      * contradiction.
      * apply Hnotin. now left.
    + apply IH; [exact Hl | tauto].
Qed.
Section AfterRegistration.
Context `{BcryptJS} `{UserSchema}.

(** X3.  The probe and a registration.  For an unused email
    [checkEmailExist] answers [isExited = false]; it still does right after
    an accepted [register] has returned, the insert being in flight; and it
    answers [isExited = true] once the insert has landed. *)
Theorem register_then_checkEmailExist (w : World) (req : IRegisterRequest.t) :
  db_fault w = None ->
  in_flight w = [] ->
  account w (IRegisterRequest.email req) = None ->
  IRegisterRequest.password req = IRegisterRequest.confirmPassword req ->
  let w1 := snd (authService.register req w) in
  let absent :=
    Fulfilled (mkServiceResponse Success "Email does not exist"
                 (Some (mkICheckAccountExited false)) 200%Z) in
  fst (authService.checkEmailExist (IRegisterRequest.email req) w) = absent
  /\ fst (authService.checkEmailExist (IRegisterRequest.email req) w1)
     = absent
  /\ fst (authService.checkEmailExist (IRegisterRequest.email req)
            (User.land w1)) =
       Fulfilled (mkServiceResponse Success "Email exists"
                    (Some (mkICheckAccountExited true)) 200%Z).
Proof.
  intros Hdb Hfl Hacc Heq w1 absent. subst w1 absent.
  rewrite (register_fresh_run w req Hdb Hacc Heq). simpl.
  split; [|split].
  - now rewrite (checkEmailExist_reachable w _ Hdb), Hacc.
  - rewrite (checkEmailExist_reachable (after_register w req) _ Hdb).
    unfold account, after_register. simpl. unfold account in Hacc.
    now rewrite Hacc.
  - rewrite (checkEmailExist_reachable (User.land (after_register w req)));
      [| now rewrite (land_after_register w req Hdb Hfl)].
    rewrite (account_after_landing w req _ Hdb Hfl), Hacc.
    now rewrite String.eqb_refl.
Qed.

(** X4.  Register, then log in.  Right after an accepted [register] has
    returned, [login] with the request's email and password is still
    answered Failed/422, the insert being in flight; once the insert has
    landed it is answered Success/200, and the [id] claim of both tokens is
    the [IdUser] of the account the email now finds, a document of the
    collection under that email. *)
Theorem register_then_login `{!BcryptVerifies} (w : World)
    (req : IRegisterRequest.t) :
  db_fault w = None ->
  in_flight w = [] ->
  account w (IRegisterRequest.email req) = None ->
  IRegisterRequest.password req = IRegisterRequest.confirmPassword req ->
  let w1 := snd (authService.register req w) in
  fst (authService.login (IRegisterRequest.email req)
         (IRegisterRequest.password req) w1) =
    Fulfilled (mkServiceResponse Failed "Email or Password is not correct"
                 None 422%Z)
  /\ exists (doc : UserType.t) (access refresh : jwt.token),
       account (User.land w1) (IRegisterRequest.email req) = Some doc
       /\ In doc (users (User.land w1))
       /\ UserType.email doc = IRegisterRequest.email req
       /\ fst (authService.login (IRegisterRequest.email req)
                 (IRegisterRequest.password req) (User.land w1)) =
            Fulfilled (mkServiceResponse Success "Login successfully"
                         (Some (mkILoginResponse access refresh)) 200%Z)
       /\ jwt.get "id" (jwt.decode access) = Some (UserType.IdUser doc)
       /\ jwt.get "id" (jwt.decode refresh) = Some (UserType.IdUser doc).
Proof.
  intros Hdb Hfl Hacc Heq w1. subst w1.
  rewrite (register_fresh_run w req Hdb Hacc Heq). simpl. split.
  - rewrite (login_absent (after_register w req)); [reflexivity | exact Hdb |].
    unfold account, after_register. simpl. exact Hacc.
  - assert (Hnew : account (User.land (after_register w req))
                     (IRegisterRequest.email req)
                   = Some (document_of w (registration w req))).
    { rewrite (account_after_landing w req _ Hdb Hfl), Hacc.
      now rewrite String.eqb_refl. }
    assert (Hdb' : db_fault (User.land (after_register w req)) = None)
      by now rewrite (land_after_register w req Hdb Hfl).
    exists (document_of w (registration w req)).
    rewrite (login_found _ _ _ _ Hdb' Hnew). simpl.
    rewrite compare_hash. simpl.
    eexists. eexists. split; [exact Hnew|].
    split; [exact (proj1 (lookup_by_email_sound _ _ _ Hnew))|].
    repeat split.
Qed.

(** X17.  One account per email, sequentially.  If the collection has no
    two documents under one email and no insert is in flight, then after
    [register], whatever the request and whether or not the store answers,
    and after the landing of the insert it may have started, the collection
    still has no two documents under one email. *)
Theorem register_keeps_emails_unique (w : World) (req : IRegisterRequest.t) :
  NoDup (map UserType.email (users w)) ->
  in_flight w = [] ->
  NoDup (map UserType.email
           (users (User.land (snd (authService.register req w))))).
Proof.
  intros Hnd Hfl.
  destruct (db_fault w) as [m|] eqn:Hdb.
  - rewrite (register_store_fault w req m Hdb). simpl.
    rewrite land_idle; [exact Hnd | exact Hfl].
  - destruct (account w (IRegisterRequest.email req)) as [u|] eqn:Hacc.
    + rewrite (register_existing w req u Hdb Hacc). simpl.
      now rewrite (land_idle w Hfl).
    + destruct (String.eqb (IRegisterRequest.password req)
                  (IRegisterRequest.confirmPassword req)) eqn:Hpw.
      * apply String.eqb_eq in Hpw.
        rewrite (register_fresh_run w req Hdb Hacc Hpw). simpl.
        rewrite (land_after_register w req Hdb Hfl). simpl.
        rewrite map_app. simpl. apply NoDup_snoc; [exact Hnd|].
        rewrite in_map_iff. intros [u [Heq Hin]].
        exact (proj1 (lookup_by_email_absent (users w)
                        (IRegisterRequest.email req)) Hacc u Hin Heq).
      * rewrite (register_mismatch w req Hdb Hacc Hpw). simpl.
        now rewrite (land_idle w Hfl).
Qed.
End AfterRegistration.

(** ** Caught errors, the error log and the collection *)

Section FaultsAndEffects.
Context `{BcryptJS}.

(** X5.  When the store rejects with message [m], each of the four
    operations that query it answers Failed/500 without payload, with [m]
    under the operation's own prefix; that message is appended to the error
    log, once, and the collection is left as it was. *)
Theorem store_fault_reported_and_logged (w : World) (m : string) :
  db_fault w = Some m ->
  (forall e pw,
      reports_fault w ("Error during login: " ++ m)
        (authService.login e pw w)) /\
  (forall e pw,
      reports_fault w ("Error during login: " ++ m)
        (authService.loginWeb e pw w)) /\
  (forall req,
      reports_fault w ("Error during registration: " ++ m)
        (authService.register req w)) /\
  (forall e,
      reports_fault w ("Error checking email existence: " ++ m)
        (authService.checkEmailExist e w)).
Proof.
  intros Hdb. unfold reports_fault. repeat split.
  all: first
    [ rewrite (login_store_fault w _ _ m Hdb)
    | rewrite (loginWeb_store_fault w _ _ m Hdb)
    | rewrite (register_store_fault w _ m Hdb)
    | rewrite (checkEmailExist_store_fault w _ m Hdb) ];
    reflexivity.
Qed.

Lemma login_users (w : World) (e pw : string) :
  users (snd (authService.login e pw w)) = users w.
Proof.
  destruct (db_fault w) as [m|] eqn:Hdb.
  - now rewrite (login_store_fault w e pw m Hdb).
  - destruct (account w e) as [u|] eqn:Hacc.
    + rewrite (login_found w e pw u Hdb Hacc).
      destruct (compareSync pw (UserType.password u)) as [[|]|m];
        reflexivity.
    + now rewrite (login_absent w e pw Hdb Hacc).
Qed.

Lemma loginWeb_users (w : World) (e pw : string) :
  users (snd (authService.loginWeb e pw w)) = users w.
Proof.
  destruct (db_fault w) as [m|] eqn:Hdb.
  - now rewrite (loginWeb_store_fault w e pw m Hdb).
  - destruct (account w e) as [u|] eqn:Hacc.
    + rewrite (loginWeb_found w e pw u Hdb Hacc).
      destruct (String.eqb (UserType.Role u) "client-manager");
        [destruct (compareSync pw (UserType.password u)) as [[|]|m]|];
        reflexivity.
    + now rewrite (loginWeb_absent w e pw Hdb Hacc).
Qed.

Lemma register_reachable_world (w : World) (req : IRegisterRequest.t) :
  db_fault w = None ->
  snd (authService.register req w) = w
  \/ snd (authService.register req w) = after_register w req.
Proof.
  intros Hdb.
  destruct (account w (IRegisterRequest.email req)) as [u|] eqn:Hacc.
  - left. now rewrite (register_existing w req u Hdb Hacc).
  - destruct (String.eqb (IRegisterRequest.password req)
                (IRegisterRequest.confirmPassword req)) eqn:Hpw.
    + right. apply String.eqb_eq in Hpw.
      now rewrite (register_fresh_run w req Hdb Hacc Hpw).
    + left. now rewrite (register_mismatch w req Hdb Hacc Hpw).
Qed.

(** X6.  While the store answers, the error log is written only when
    bcrypt's comparison throws.  [register], [checkEmailExist] and
    [generateRefreshToken] log nothing; [login] and [loginWeb] log nothing
    unless the comparison against the password of the account found throws:
    wrong credentials, a role that is not the manager's, a duplicate email
    and a confirmation mismatch are answered without logging, as are all
    successes. *)
Theorem validation_failures_not_logged (w : World) :
  db_fault w = None ->
  (forall e pw,
      (forall u m, account w e = Some u ->
                   compareSync pw (UserType.password u) <> Rejected m) ->
      errors_logged (snd (authService.login e pw w)) = errors_logged w
      /\ errors_logged (snd (authService.loginWeb e pw w))
         = errors_logged w) /\
  (forall req,
      errors_logged (snd (authService.register req w)) = errors_logged w) /\
  (forall e,
      errors_logged (snd (authService.checkEmailExist e w))
      = errors_logged w) /\
  (forall userId,
      errors_logged (snd (authService.generateRefreshToken userId w))
      = errors_logged w).
Proof.
  intros Hdb. refine (conj _ (conj _ (conj _ _))).
  - intros e pw Hok. destruct (account w e) as [u|] eqn:Hacc.
    + rewrite (login_found w e pw u Hdb Hacc),
        (loginWeb_found w e pw u Hdb Hacc).
      pose proof (Hok u) as Hu.
      destruct (String.eqb (UserType.Role u) "client-manager");
        destruct (compareSync pw (UserType.password u)) as [[|]|m];
        try (split; reflexivity);
        exfalso; exact (Hu m eq_refl eq_refl).
    + rewrite (login_absent w e pw Hdb Hacc),
        (loginWeb_absent w e pw Hdb Hacc).
      split; reflexivity.
  - intros req.
    destruct (register_reachable_world w req Hdb) as [-> | ->]; reflexivity.
  - intros e. now rewrite (checkEmailExist_reachable w e Hdb).
  - intros userId. now rewrite generateRefreshToken_run.
Qed.

(** X7.  In every world, reachable store or not, no operation of the
    service removes or alters a document: [login], [loginWeb],
    [checkEmailExist] and [generateRefreshToken] leave the collection as it
    was, and [register] leaves it as it was or with one document appended. *)
Theorem service_preserves_accounts (w : World) :
  (forall e pw, users (snd (authService.login e pw w)) = users w) /\
  (forall e pw, users (snd (authService.loginWeb e pw w)) = users w) /\
  (forall e, users (snd (authService.checkEmailExist e w)) = users w) /\
  (forall userId,
      users (snd (authService.generateRefreshToken userId w)) = users w) /\
  (forall req,
      users (snd (authService.register req w)) = users w
      \/ exists doc,
           users (snd (authService.register req w))
           = (users w ++ [doc])%list).
Proof.
  refine (conj _ (conj _ (conj _ (conj _ _)))).
  - intros e pw. apply login_users.
  - intros e pw. apply loginWeb_users.
  - intros e. destruct (db_fault w) as [m|] eqn:Hdb.
    + now rewrite (checkEmailExist_store_fault w e m Hdb).
    + now rewrite (checkEmailExist_reachable w e Hdb).
  - intros userId. now rewrite generateRefreshToken_run.
  - intros req. left. destruct (db_fault w) as [m|] eqn:Hdb.
    + now rewrite (register_store_fault w req m Hdb).
    + destruct (register_reachable_world w req Hdb) as [-> | ->];
        reflexivity.
Qed.

(** X20.  A stored password that makes bcrypt's comparison throw.  With the
    store reachable, when the comparison against the password of the
    account found throws with message [m], [login] answers Failed/500
    "Error during login: " followed by [m], without payload, logs that
    message once and leaves the collection as it was; [loginWeb] does the
    same when the account's role is "client-manager". *)
Theorem compare_error_reported_and_logged
    (w : World) (e pw m : string) (u : UserType.t) :
  db_fault w = None ->
  account w e = Some u ->
  compareSync pw (UserType.password u) = Rejected m ->
  reports_fault w ("Error during login: " ++ m) (authService.login e pw w)
  /\ (UserType.Role u = "client-manager" ->
      reports_fault w ("Error during login: " ++ m)
        (authService.loginWeb e pw w)).
Proof.
  intros Hdb Hacc Hpw. unfold reports_fault. split.
  - rewrite (login_found w e pw u Hdb Hacc), Hpw. repeat split.
  - intros Hrole.
    rewrite (loginWeb_found w e pw u Hdb Hacc), Hrole, Hpw. repeat split.
Qed.
End FaultsAndEffects.

(** ** Signing keys across the two login paths *)

Section SigningKeys.
Context `{BcryptJS}.

(** X8.  In a reachable store, [loginWeb] for an account whose role is
    "client-manager", with a password bcrypt accepts, returns Success/200
    and leaves the world as it was; its tokens have lifetimes "1d" and "2d",
    carry the account's [IdUser] as [id], and verify under TOKEN_SECRET (or
    its default); they verify under the key of [login] exactly when the two
    keys coincide. *)
Theorem loginWeb_issues_token_pair
    (w : World) (e pw : string) (u : UserType.t) :
  db_fault w = None ->
  account w e = Some u ->
  UserType.Role u = "client-manager" ->
  compareSync pw (UserType.password u) = Fulfilled true ->
  exists access refresh : jwt.token,
    authService.loginWeb e pw w =
      (Fulfilled (mkServiceResponse Success "Login successfully"
                    (Some (mkILoginResponse access refresh)) 200%Z), w)
    /\ jwt.lifetime access = Some 86400%Z
    /\ jwt.lifetime refresh = Some 172800%Z
    /\ jwt.verify access (web_secret (env w))
       = Some [("id", UserType.IdUser u)]
    /\ jwt.verify refresh (web_secret (env w))
       = Some [("id", UserType.IdUser u)]
    /\ (jwt.verify access (login_secret (env w)) <> None <->
        login_secret (env w) = web_secret (env w)).
Proof.
  intros Hdb Hacc Hrole Hpw.
  rewrite (loginWeb_found w e pw u Hdb Hacc), Hrole, Hpw. simpl.
  eexists. eexists. split; [reflexivity|].
  unfold jwt.verify, jwt.sign. simpl. rewrite String.eqb_refl.
  repeat split.
  - intros Hv.
    destruct (String.eqb (web_secret (env w)) (login_secret (env w))) eqn:He;
      [symmetry; now apply String.eqb_eq | now contradiction Hv].
  - intros ->. rewrite String.eqb_refl. discriminate.
Qed.

(** X9.  An unset and an empty JWT_SECRET are the same to [login]: in
    either case the tokens of a successful login verify under the literal
    key "default_secret". *)
Theorem login_unset_secret_signs_with_default
    (w : World) (e pw : string) (u : UserType.t) :
  db_fault w = None ->
  account w e = Some u ->
  compareSync pw (UserType.password u) = Fulfilled true ->
  JWT_SECRET (env w) = None \/ JWT_SECRET (env w) = Some "" ->
  exists access refresh : jwt.token,
    authService.login e pw w =
      (Fulfilled (mkServiceResponse Success "Login successfully"
                    (Some (mkILoginResponse access refresh)) 200%Z), w)
    /\ jwt.verify access "default_secret" = Some [("id", UserType.IdUser u)]
    /\ jwt.verify refresh "default_secret"
       = Some [("id", UserType.IdUser u)].
Proof.
  intros Hdb Hacc Hpw Henv.
  rewrite (login_found w e pw u Hdb Hacc), Hpw.
  eexists. eexists. split; [reflexivity|].
  unfold jwt.verify, jwt.sign, login_secret, or_default. simpl.
  destruct Henv as [-> | ->]; simpl; split; reflexivity.
Qed.

(** X10.  When two accounts share an email, [login] answers for the first
    one only: a password that the second account's hash accepts and the
    first one's rejects is answered Failed/422 "Email or Password is not
    correct". *)
Theorem login_shadowed_account
    (w : World) (e pw : string) (first second : UserType.t) :
  db_fault w = None ->
  account w e = Some first ->
  In second (users w) ->
  UserType.email second = e ->
  compareSync pw (UserType.password second) = Fulfilled true ->
  compareSync pw (UserType.password first) = Fulfilled false ->
  authService.login e pw w =
    (Fulfilled (mkServiceResponse Failed "Email or Password is not correct"
                  None 422%Z), w).
Proof.
  intros Hdb Hacc _ _ _ Hpw.
  now rewrite (login_found w e pw first Hdb Hacc), Hpw.
Qed.
End SigningKeys.


(** ** userRepository: lookups, creation, password change *)

Lemma lookup_sound (f : User.Filter) (docs : list UserType.t)
    (u : UserType.t) :
  User.lookup f docs = Some u -> In u docs /\ User.matches f u = true.
Proof. unfold User.lookup. apply find_some. Qed.

Lemma lookup_complete (f : User.Filter) (docs : list UserType.t) :
  User.lookup f docs = None <->
  (forall u, In u docs -> User.matches f u = false).
Proof.
  unfold User.lookup. split.
  - intros Hf u Hin. exact (find_none _ _ Hf u Hin).
  - intros Hall. induction docs as [|d docs IH]; [reflexivity|].
    simpl. rewrite (Hall d (or_introl eq_refl)).
    apply IH. intros u Hin. apply Hall. now right.
Qed.

Lemma update_first_without_password (id h : string)
    (docs : list UserType.t) :
  map without_password (User.update_first id [User.set_password h] docs)
  = map without_password docs.
Proof.
  induction docs as [|d docs IH]; simpl; [reflexivity|].
  destruct (String.eqb (UserType._id d) id); simpl.
  - reflexivity.
  - now rewrite IH.
Qed.

(** A password update leaves the account that an email finds in place. *)
Lemma lookup_email_after_password_update (id h e : string)
    (docs : list UserType.t) (u : UserType.t) :
  List.find (fun d => String.eqb (UserType._id d) id) docs = Some u ->
  User.lookup (User.by_email e) docs = Some u ->
  User.lookup (User.by_email e)
    (User.update_first id [User.set_password h] docs)
  = Some (User.assign (User.set_password h) u).
Proof.
  unfold User.lookup.
  induction docs as [|d docs IH]; simpl; [discriminate|].
  destruct (String.eqb (UserType._id d) id) eqn:Hid.
  - intros [= ->]. simpl.
    destruct (String.eqb (UserType.email u) e) eqn:He; [reflexivity|].
    intros Hrest. apply find_some in Hrest. simpl in Hrest.
    destruct Hrest as [_ Hm]. congruence.
  - intros Hfind. simpl.
    destruct (String.eqb (UserType.email d) e) eqn:He.
    + intros [= ->]. apply find_some in Hfind. destruct Hfind as [_ Hm].
      simpl in Hm. congruence.
    + now apply IH.
Qed.

Section RepositoryProperties.
Context `{BcryptJS} `{UserSchema}.

(** X11.  Lookups in a reachable store.  [findByEmailAsync] and
    [findByIdAsync] resolve with a document of the collection whose [email],
    respectively [IdUser], is the key asked for, or with [null] exactly when
    no document of the collection has that key; neither changes the world. *)
Theorem repository_lookups_sound_and_complete (w : World) (k : string) :
  db_fault w = None ->
  (exists r,
      userRepository.findByEmailAsync k w = (Fulfilled r, w)
      /\ (forall u, r = Some u -> In u (users w) /\ UserType.email u = k)
      /\ (r = None <-> forall u, In u (users w) -> UserType.email u <> k)) /\
  (exists r,
      userRepository.findByIdAsync k w = (Fulfilled r, w)
      /\ (forall u, r = Some u -> In u (users w) /\ UserType.IdUser u = k)
      /\ (r = None <-> forall u, In u (users w) -> UserType.IdUser u <> k)).
Proof.
  intros Hdb. split.
  - exists (User.lookup (User.by_email k) (users w)). split.
    + unfold userRepository.findByEmailAsync, User.findOne, User.query.
      now rewrite Hdb.
    + split.
      * intros u Hr. apply lookup_sound in Hr. destruct Hr as [Hin Hm].
        split; [exact Hin | now apply String.eqb_eq].
      * rewrite lookup_complete. split; intros Hall u Hin.
        -- apply String.eqb_neq. exact (Hall u Hin).
        -- apply String.eqb_neq. exact (Hall u Hin).
  - exists (User.lookup (User.by_IdUser k) (users w)). split.
    + unfold userRepository.findByIdAsync, User.findOne, User.query.
      now rewrite Hdb.
    + split.
      * intros u Hr. apply lookup_sound in Hr. destruct Hr as [Hin Hm].
        split; [exact Hin | now apply String.eqb_eq].
      * rewrite lookup_complete. split; intros Hall u Hin.
        -- apply String.eqb_neq. exact (Hall u Hin).
        -- apply String.eqb_neq. exact (Hall u Hin).
Qed.

Lemma casts_of_castId (id : string) (docs : list UserType.t) :
  castId id = true -> User.casts id docs = true.
Proof. intros Hc. unfold User.casts. now rewrite Hc. Qed.

Lemma casts_unknown (id : string) (docs : list UserType.t) :
  castId id = false ->
  (forall u, In u docs -> UserType._id u <> id) ->
  User.casts id docs = false.
Proof.
  intros Hc Hnone. unfold User.casts. rewrite Hc. simpl.
  destruct (existsb (fun u => String.eqb (UserType._id u) id) docs) eqn:Hex;
    [|reflexivity].
  apply existsb_exists in Hex. destruct Hex as [u [Hin Hid]].
  apply String.eqb_eq in Hid. exfalso. exact (Hnone u Hin Hid).
Qed.

(** X12.  The repository has no failure boundary of its own.  When the
    store rejects with message [m], [findAllAsync], [findByIdAsync],
    [findByEmailAsync] and [createUserAsync] reject with that same [m] and
    change nothing; [changePasswordAsync] rejects with [m] for an id that
    casts to the type of [_id], and with the CastError, raised before the
    store is asked, for an id that does not cast and that no document has;
    either way the collection is left as it was. *)
Theorem repository_faults_propagate (w : World) (m : string) :
  db_fault w = Some m ->
  userRepository.findAllAsync w = (Rejected m, w) /\
  (forall i, userRepository.findByIdAsync i w = (Rejected m, w)) /\
  (forall e, userRepository.findByEmailAsync e w = (Rejected m, w)) /\
  (forall d, userRepository.createUserAsync d w = (Rejected m, w)) /\
  (forall id pw,
      castId id = true ->
      fst (userRepository.changePasswordAsync id pw w) = Rejected m
      /\ users (snd (userRepository.changePasswordAsync id pw w)) = users w) /\
  (forall id pw,
      castId id = false ->
      (forall u, In u (users w) -> UserType._id u <> id) ->
      fst (userRepository.changePasswordAsync id pw w)
      = Rejected (castError id)
      /\ users (snd (userRepository.changePasswordAsync id pw w)) = users w).
Proof.
  intros Hdb. refine (conj _ (conj _ (conj _ (conj _ (conj _ _))))).
  - unfold userRepository.findAllAsync, User.find, User.query.
    now rewrite Hdb.
  - intros i. unfold userRepository.findByIdAsync, User.findOne, User.query.
    now rewrite Hdb.
  - intros e.
    unfold userRepository.findByEmailAsync, User.findOne, User.query.
    now rewrite Hdb.
  - intros d. unfold userRepository.createUserAsync, User.create, User.query.
    now rewrite Hdb.
  - intros id pw Hc.
    exact (changePasswordAsync_store_fault w id pw m Hdb
             (casts_of_castId id (users w) Hc)).
  - intros id pw Hc Hnone.
    exact (changePasswordAsync_cast_error w id pw
             (casts_unknown id (users w) Hc Hnone)).
Qed.

(** X13.  Creation does not enforce one account per email.  In a reachable
    store [createUserAsync] always appends a document carrying the given
    email; a lookup by that email afterwards finds the new document when the
    email was unused, and still finds the older account when it was not. *)
Theorem createUserAsync_then_findByEmail (w : World) (d : UserData) :
  db_fault w = None ->
  exists doc w',
    userRepository.createUserAsync d w = (Fulfilled doc, w')
    /\ users w' = (users w ++ [doc])%list
    /\ UserType.email doc = d_email d
    /\ UserType.password doc = d_password d
    /\ fst (userRepository.findByEmailAsync (d_email d) w') =
         Fulfilled (Some match account w (d_email d) with
                         | Some older => older
                         | None => doc
                         end).
Proof.
  intros Hdb.
  unfold userRepository.createUserAsync, User.create, User.query.
  rewrite Hdb. eexists. eexists. split; [reflexivity|].
  repeat split.
  unfold userRepository.findByEmailAsync, User.findOne, User.query. simpl.
  rewrite lookup_snoc. unfold account.
  destruct (User.lookup (User.by_email (d_email d)) (users w));
    [reflexivity|].
  simpl. now rewrite String.eqb_refl.
Qed.

(** X14.  Changing the password of an [_id] no document has.  When the
    id casts to the type of [_id] and the store is reachable,
    [changePasswordAsync] resolves with [null]; when the id does not cast,
    it rejects with the CastError, whether or not the store is reachable.
    In both cases the collection is left as it was. *)
Theorem changePasswordAsync_unknown_id (w : World) (id newPassword : string) :
  (forall u, In u (users w) -> UserType._id u <> id) ->
  (castId id = true ->
   db_fault w = None ->
   fst (userRepository.changePasswordAsync id newPassword w) = Fulfilled None
   /\ users (snd (userRepository.changePasswordAsync id newPassword w))
      = users w) /\
  (castId id = false ->
   fst (userRepository.changePasswordAsync id newPassword w)
   = Rejected (castError id)
   /\ users (snd (userRepository.changePasswordAsync id newPassword w))
      = users w).
Proof.
  intros Hnone. split.
  - intros Hc Hdb.
    assert (Hfind : List.find (fun d => String.eqb (UserType._id d) id)
                      (users w) = None).
    { induction (users w) as [|d docs IH]; [reflexivity|]. simpl.
      destruct (String.eqb (UserType._id d) id) eqn:Hd.
      - apply String.eqb_eq in Hd. exfalso.
        exact (Hnone d (or_introl eq_refl) Hd).
      - apply IH. intros u Hin. apply Hnone. now right. }
    rewrite (changePasswordAsync_reachable w id newPassword Hdb
               (casts_of_castId id (users w) Hc)).
    simpl. rewrite (update_first_absent id _ (users w) Hfind).
    split; [exact (f_equal Fulfilled Hfind) | reflexivity].
  - intros Hc.
    exact (changePasswordAsync_cast_error w id newPassword
             (casts_unknown id (users w) Hc Hnone)).
Qed.

(** X15.  In every world, [changePasswordAsync] touches passwords only:
    seen without their passwords, the documents of the collection afterwards
    are, one by one and in order, the documents before; and the error log is
    left as it was. *)
Theorem changePasswordAsync_only_password
    (w : World) (id newPassword : string) :
  map without_password
    (users (snd (userRepository.changePasswordAsync id newPassword w)))
  = map without_password (users w)
  /\ errors_logged (snd (userRepository.changePasswordAsync id newPassword w))
     = errors_logged w.
Proof.
  unfold userRepository.changePasswordAsync, User.findByIdAndUpdate,
    User.query, bind, ret, throw, bcrypt.hash, bcrypt.genSalt, with_users.
  simpl. destruct (User.casts id (users w)); [|split; reflexivity].
  destruct (db_fault w); simpl; [split; reflexivity|].
  split; [apply update_first_without_password | reflexivity].
Qed.

(** X16.  Change the password, then log in: in a reachable store, when the
    document with the given [_id] is also the account its email finds,
    [login] with that email and the new password succeeds after
    [changePasswordAsync], with the account's [IdUser] as the [id] claim of
    both tokens. *)
Theorem changePasswordAsync_then_login `{!BcryptVerifies}
    (w : World) (id newPassword : string) (u : UserType.t) :
  db_fault w = None ->
  List.find (fun d => String.eqb (UserType._id d) id) (users w) = Some u ->
  account w (UserType.email u) = Some u ->
  exists access refresh : jwt.token,
    fst (authService.login (UserType.email u) newPassword
           (snd (userRepository.changePasswordAsync id newPassword w))) =
      Fulfilled (mkServiceResponse Success "Login successfully"
                   (Some (mkILoginResponse access refresh)) 200%Z)
    /\ jwt.get "id" (jwt.decode access) = Some (UserType.IdUser u)
    /\ jwt.get "id" (jwt.decode refresh) = Some (UserType.IdUser u).
Proof.
  intros Hdb Hfind Hacc.
  rewrite (changePasswordAsync_reachable w id newPassword Hdb
             (casts_of_found id (users w) u Hfind)).
  simpl.
  set (h := hashSync newPassword (genSaltSync 10 (entropy w))).
  set (w' := mkWorld _ _ _ _ _ _ _ _).
  assert (Hacc' : account w' (UserType.email u)
                  = Some (User.assign (User.set_password h) u)).
  { unfold account, w'. simpl.
    now apply lookup_email_after_password_update. }
  rewrite (login_found w' _ newPassword _ Hdb Hacc'). simpl.
  unfold h. rewrite compare_hash.
  eexists. eexists. split; [reflexivity|]. split; reflexivity.
Qed.
End RepositoryProperties.


(** ** What the two login paths share and where they differ *)

Section LoginPaths.
Context `{BcryptJS}.

(** X18.  No token leaves the service signed under the empty key: whatever
    the environment holds, every token in a payload of [login], [loginWeb]
    or [generateRefreshToken] has a non-empty signing key. *)
Theorem issued_tokens_have_nonempty_key (w : World) :
  (forall e pw r p,
      fst (authService.login e pw w) = Fulfilled r ->
      responseObject r = Some p ->
      jwt.key (token p) <> "" /\ jwt.key (refreshToken p) <> "") /\
  (forall e pw r p,
      fst (authService.loginWeb e pw w) = Fulfilled r ->
      responseObject r = Some p ->
      jwt.key (token p) <> "" /\ jwt.key (refreshToken p) <> "") /\
  (forall userId r p,
      fst (authService.generateRefreshToken userId w) = Fulfilled r ->
      responseObject r = Some p ->
      jwt.key (issuedRefreshToken p) <> "").
Proof.
  assert (Hlogin : login_secret (env w) <> "")
    by (apply or_default_nonempty; discriminate).
  assert (Hweb : web_secret (env w) <> "")
    by (apply or_default_nonempty; discriminate).
  refine (conj _ (conj _ _)).
  - intros e pw r p Hrun Hp.
    destruct (db_fault w) as [m|] eqn:Hdb.
    + rewrite (login_store_fault w e pw m Hdb) in Hrun.
      injection Hrun as <-. discriminate Hp.
    + destruct (account w e) as [u|] eqn:Hacc.
      * rewrite (login_found w e pw u Hdb Hacc) in Hrun.
        destruct (compareSync pw (UserType.password u)) as [[|]|m];
          injection Hrun as <-; try discriminate Hp.
        injection Hp as <-. split; exact Hlogin.
      * rewrite (login_absent w e pw Hdb Hacc) in Hrun.
        injection Hrun as <-. discriminate Hp.
  - intros e pw r p Hrun Hp.
    destruct (db_fault w) as [m|] eqn:Hdb.
    + rewrite (loginWeb_store_fault w e pw m Hdb) in Hrun.
      injection Hrun as <-. discriminate Hp.
    + destruct (account w e) as [u|] eqn:Hacc.
      * rewrite (loginWeb_found w e pw u Hdb Hacc) in Hrun.
        destruct (String.eqb (UserType.Role u) "client-manager");
          [|injection Hrun as <-; discriminate Hp].
        destruct (compareSync pw (UserType.password u)) as [[|]|m];
          injection Hrun as <-; try discriminate Hp.
        injection Hp as <-. split; exact Hweb.
      * rewrite (loginWeb_absent w e pw Hdb Hacc) in Hrun.
        injection Hrun as <-. discriminate Hp.
  - intros userId r p Hrun Hp.
    rewrite generateRefreshToken_run in Hrun.
    injection Hrun as <-. injection Hp as <-. exact Hweb.
Qed.

(** X19.  [login] has no role gate: in a reachable store, for an account
    whose role is not "client-manager" and a password bcrypt accepts,
    [login] answers Success/200 where [loginWeb], called with the same email
    and password, answers Failed/422. *)
Theorem login_has_no_role_gate (w : World) (e pw : string) (u : UserType.t) :
  db_fault w = None ->
  account w e = Some u ->
  UserType.Role u <> "client-manager" ->
  compareSync pw (UserType.password u) = Fulfilled true ->
  (exists p,
      fst (authService.login e pw w) =
        Fulfilled (mkServiceResponse Success "Login successfully" (Some p)
                     200%Z)) /\
  fst (authService.loginWeb e pw w) =
    Fulfilled (mkServiceResponse Failed "Email or Password is not correct"
                 None 422%Z).
Proof.
  intros Hdb Hacc Hrole Hpw. apply String.eqb_neq in Hrole. split.
  - rewrite (login_found w e pw u Hdb Hacc), Hpw. eexists. reflexivity.
  - now rewrite (loginWeb_found w e pw u Hdb Hacc), Hrole.
Qed.
End LoginPaths.


(** ** The theorems at the concrete instance *)

Lemma length_append (s1 s2 : string) :
  String.length (s1 ++ s2) = String.length s1 + String.length s2.
Proof.
  induction s1 as [|c s1 IH]; simpl; [reflexivity | now rewrite IH].
Qed.

Lemma demoBcrypt_one_way : @BcryptOneWay demoBcrypt.
Proof.
  intros s slt Heq. apply (f_equal String.length) in Heq.
  simpl in Heq. rewrite length_append in Heq. simpl in Heq. lia.
Qed.

Lemma demoWorld_emails_unique : NoDup (map UserType.email (users demoWorld)).
Proof.
  simpl. repeat constructor; simpl; intuition discriminate.
Qed.

Lemma demoBcrypt_verifies : @BcryptVerifies demoBcrypt.
Proof. intros s n seed. simpl. now rewrite String.eqb_refl. Qed.

Lemma login_issues_token_pair_witness :
  exists access refresh : jwt.token,
    @authService.login demoBcrypt (UserType.email alice) "secret123" demoWorld
    = (Fulfilled (mkServiceResponse Success "Login successfully"
                    (Some (mkILoginResponse access refresh)) 200%Z),
       demoWorld)
    /\ jwt.lifetime access = Some 86400%Z
    /\ jwt.lifetime refresh = Some 172800%Z
    /\ jwt.get "id" (jwt.decode access) = Some "U0"
    /\ jwt.get "id" (jwt.decode refresh) = Some "U0"
    /\ jwt.key access = "login-key"
    /\ jwt.key refresh = "login-key".
Proof.
  destruct (@login_issues_token_pair demoBcrypt demoWorld alice "secret123"
              eq_refl eq_refl eq_refl)
    as [access [refresh
         [Hrun [_ [Ha [_ [Hr [_ [_ [Hida [Hidr [Hkey _]]]]]]]]]]]].
  assert (Hne : "login-key" <> "") by discriminate.
  destruct (Hkey "login-key" eq_refl Hne) as [Hka Hkr].
  exists access, refresh. repeat split; assumption.
Defined.


Lemma login_failures_indistinguishable_witness :
  @authService.login demoBcrypt "nobody@example.com" "secret123" demoWorld
  = (Fulfilled (mkServiceResponse Failed "Email or Password is not correct"
                  None 422%Z), demoWorld)
  /\ @authService.login demoBcrypt "bob@example.com" "secret123" demoWorld
     = @authService.login demoBcrypt "nobody@example.com" "secret123"
         demoWorld.
Proof.
  apply (@login_failures_indistinguishable demoBcrypt demoWorld
           "nobody@example.com" "secret123" "bob@example.com" "secret123" bob);
    reflexivity.
Defined.

Lemma loginWeb_manager_only_witness :
  @authService.loginWeb demoBcrypt "bob@example.com" "hunter2" demoWorld
  = (Fulfilled (mkServiceResponse Failed "Email or Password is not correct"
                  None 422%Z), demoWorld)
  /\ (exists u, account demoWorld "alice@example.com" = Some u
                /\ UserType.Role u = "client-manager").
Proof.
  split.
  - assert (Hrole : UserType.Role bob <> "client-manager") by discriminate.
    exact (proj1 (proj2 (@loginWeb_manager_only demoBcrypt demoWorld
                           "bob@example.com" "hunter2")
                    bob eq_refl eq_refl eq_refl Hrole)).
  - apply (proj1 (@loginWeb_manager_only demoBcrypt demoWorld
                    "alice@example.com" "secret123")
             (mkServiceResponse Success "Login successfully"
                (Some (mkILoginResponse
                   (jwt.sign [("id", "U0")] "web-key" (jwt.mkSignOptions "1d"))
                   (jwt.sign [("id", "U0")] "web-key"
                      (jwt.mkSignOptions "2d"))))
                200%Z)
             demoWorld); reflexivity.
Defined.

Lemma loginWeb_non_manager_ignores_password_witness :
  @authService.loginWeb demoBcrypt "bob@example.com" "hunter2" demoWorld
  = (Fulfilled (mkServiceResponse Failed "Email or Password is not correct"
                  None 422%Z), demoWorld)
  /\ @authService.loginWeb demoBcrypt "bob@example.com" "anything" demoWorld
     = (Fulfilled (mkServiceResponse Failed "Email or Password is not correct"
                     None 422%Z), demoWorld).
Proof.
  split;
    apply (@loginWeb_non_manager_ignores_password demoBcrypt demoWorld
             "bob@example.com" bob);
    first [reflexivity | discriminate].
Defined.

Lemma register_duplicate_wins_witness :
  @authService.register demoBcrypt
    (IRegisterRequest.mk "Al" "alice@example.com" "one" "two") demoWorld
  = (Fulfilled (mkServiceResponse Failed "Email is already in use" None
                  422%Z), demoWorld).
Proof.
  apply (@register_duplicate_wins demoBcrypt demoWorld
           (IRegisterRequest.mk "Al" "alice@example.com" "one" "two") alice);
    [reflexivity | reflexivity | discriminate].
Defined.

Lemma register_mismatch_no_write_witness :
  @authService.register demoBcrypt
    (IRegisterRequest.mk "Carol" "carol@example.com" "one" "two") demoWorld
  = (Fulfilled (mkServiceResponse Failed "Passwords do not match" None
                  422%Z), demoWorld)
  /\ users (snd (@authService.register demoBcrypt
                   (IRegisterRequest.mk "Carol" "carol@example.com" "one"
                      "two") demoWorld))
     = users demoWorld.
Proof.
  apply (@register_mismatch_no_write demoBcrypt demoWorld
           (IRegisterRequest.mk "Carol" "carol@example.com" "one" "two"));
    [reflexivity | reflexivity | discriminate].
Defined.

Lemma checkEmailExist_probe_witness :
  (exists msg b,
     authService.checkEmailExist "alice@example.com" demoWorld
     = (Fulfilled (mkServiceResponse Success msg
                     (Some (mkICheckAccountExited b)) 200%Z), demoWorld)
     /\ (b = true <->
         exists u, In u (users demoWorld)
                   /\ UserType.email u = "alice@example.com"))
  /\ authService.checkEmailExist "alice@example.com" downWorld
     = (Fulfilled (mkServiceResponse Failed
                     "Error checking email existence: connection refused"
                     None 500%Z),
        snd (logger.error
               "Error checking email existence: connection refused"
               downWorld)).
Proof.
  split.
  - apply (proj1 (checkEmailExist_probe demoWorld "alice@example.com")).
    reflexivity.
  - apply (proj1 (proj2 (checkEmailExist_probe downWorld "alice@example.com"))
             "connection refused").
    reflexivity.
Defined.

Lemma changePasswordAsync_persists_hash_witness :
  let h := @hashSync demoBcrypt "n3w"
             (@genSaltSync demoBcrypt 10 (entropy demoWorld)) in
  let after :=
    @userRepository.changePasswordAsync demoBcrypt demoSchema "b" "n3w"
      demoWorld in
  h = "$C$n3w"
  /\ h <> "n3w"
  /\ fst after = Fulfilled (Some (User.assign (User.set_password h) bob))
  /\ In (User.assign (User.set_password h) bob) (users (snd after)).
Proof.
  intros h after. split; [reflexivity|].
  destruct (@changePasswordAsync_persists_hash demoBcrypt demoSchema
              demoBcrypt_one_way
              demoWorld "b" "n3w") as [Hneq [_ Hret]].
  split; [exact Hneq|].
  destruct (Hret bob eq_refl eq_refl) as [Hfst [Hin _]].
  split; [exact Hfst | exact Hin].
Defined.

(** ** The further theorems at the concrete instance *)

Lemma register_starts_insert_witness :
  exists d w',
    @authService.register demoBcrypt carolRequest demoWorld =
      (Fulfilled (mkServiceResponse Success "User registered successfully"
                    (Some (inserting d)) 200%Z), w')
    /\ users w' = [alice; bob]
    /\ in_flight w' = [d]
    /\ d_Role d = "client-user"
    /\ d_password d = "$C$pw"
    /\ exists doc,
         users (@User.land demoSchema w') = [alice; bob; doc]
         /\ UserType.email doc = d_email d.
Proof.
  destruct (@register_starts_insert demoBcrypt demoSchema demoWorld
              carolRequest eq_refl eq_refl eq_refl)
    as [d [w' [Hrun [Hu [Hf [_ [_ [_ [Hrole [Hpw [_ [_ [_ Hland]]]]]]]]]]]]].
  destruct (Hland eq_refl) as [doc [Hdocs [Hemail _]]].
  exists d, w'. repeat split; try assumption.
  exists doc. split; assumption.
Defined.

Lemma register_twice_witness :
  let again := IRegisterRequest.mk "Other" "carol@example.com" "x" "x" in
  let w1 := snd (@authService.register demoBcrypt carolRequest demoWorld) in
  @authService.register demoBcrypt again (@User.land demoSchema w1) =
    (Fulfilled (mkServiceResponse Failed "Email is already in use" None
                  422%Z), @User.land demoSchema w1)
  /\ exists p w2 d1 d2,
       @authService.register demoBcrypt again w1 =
         (Fulfilled (mkServiceResponse Success "User registered successfully"
                       (Some p) 200%Z), w2)
       /\ users (@User.land demoSchema (@User.land demoSchema w2))
          = [alice; bob; d1; d2]
       /\ UserType.email d1 = "carol@example.com"
       /\ UserType.email d2 = "carol@example.com".
Proof.
  intros again w1.
  destruct (@register_twice demoBcrypt demoSchema demoWorld carolRequest
              again eq_refl eq_refl eq_refl eq_refl eq_refl)
    as [Hlanded Hraced].
  split; [exact Hlanded | exact (Hraced eq_refl)].
Defined.

Lemma register_then_checkEmailExist_witness :
  let w1 := snd (@authService.register demoBcrypt carolRequest demoWorld) in
  fst (authService.checkEmailExist "carol@example.com" w1) =
    Fulfilled (mkServiceResponse Success "Email does not exist"
                 (Some (mkICheckAccountExited false)) 200%Z)
  /\ fst (authService.checkEmailExist "carol@example.com"
            (@User.land demoSchema w1)) =
       Fulfilled (mkServiceResponse Success "Email exists"
                    (Some (mkICheckAccountExited true)) 200%Z).
Proof.
  intros w1.
  exact (proj2 (@register_then_checkEmailExist demoBcrypt demoSchema
                  demoWorld carolRequest eq_refl eq_refl eq_refl eq_refl)).
Defined.

Lemma register_then_login_witness :
  let w1 := snd (@authService.register demoBcrypt carolRequest demoWorld) in
  fst (@authService.login demoBcrypt "carol@example.com" "pw" w1) =
    Fulfilled (mkServiceResponse Failed "Email or Password is not correct"
                 None 422%Z)
  /\ exists (doc : UserType.t) (access refresh : jwt.token),
       In doc (users (@User.land demoSchema w1))
       /\ fst (@authService.login demoBcrypt "carol@example.com" "pw"
                 (@User.land demoSchema w1)) =
            Fulfilled (mkServiceResponse Success "Login successfully"
                         (Some (mkILoginResponse access refresh)) 200%Z)
       /\ jwt.get "id" (jwt.decode access) = Some (UserType.IdUser doc).
Proof.
  intros w1.
  destruct (@register_then_login demoBcrypt demoSchema demoBcrypt_verifies
              demoWorld carolRequest eq_refl eq_refl eq_refl eq_refl)
    as [Hbefore [doc [access [refresh [_ [Hin [_ [Hrun [Hid _]]]]]]]]].
  split; [exact Hbefore|].
  exists doc, access, refresh. repeat split; assumption.
Defined.

Lemma register_keeps_emails_unique_witness :
  NoDup (map UserType.email
           (users (@User.land demoSchema
                     (snd (@authService.register demoBcrypt carolRequest
                             demoWorld))))).
Proof.
  exact (@register_keeps_emails_unique demoBcrypt demoSchema demoWorld
           carolRequest demoWorld_emails_unique eq_refl).
Defined.

Lemma store_fault_reported_and_logged_witness :
  reports_fault downWorld "Error during login: connection refused"
    (@authService.login demoBcrypt "alice@example.com" "secret123" downWorld)
  /\ reports_fault downWorld "Error during registration: connection refused"
       (@authService.register demoBcrypt carolRequest downWorld).
Proof.
  destruct (@store_fault_reported_and_logged demoBcrypt downWorld
              "connection refused" eq_refl)
    as [Hlogin [_ [Hregister _]]].
  split; [exact (Hlogin "alice@example.com" "secret123")
         | exact (Hregister carolRequest)].
Defined.

Lemma validation_failures_not_logged_witness :
  errors_logged
    (snd (@authService.login demoBcrypt "alice@example.com" "wrong"
            demoWorld))
  = errors_logged demoWorld
  /\ errors_logged
       (snd (@authService.register demoBcrypt carolRequest demoWorld))
     = errors_logged demoWorld.
Proof.
  destruct (@validation_failures_not_logged demoBcrypt demoWorld eq_refl)
    as [Hlogin [Hregister _]].
  split; [|exact (Hregister carolRequest)].
  apply (Hlogin "alice@example.com" "wrong").
  intros u m Hacc. injection Hacc as <-. discriminate.
Defined.

Lemma compare_error_reported_and_logged_witness :
  reports_fault garbledWorld "Error during login: Invalid salt version"
    (@authService.login demoBcrypt "mallory@example.com" "anything"
       garbledWorld)
  /\ reports_fault garbledWorld "Error during login: Invalid salt version"
       (@authService.loginWeb demoBcrypt "mallory@example.com" "anything"
          garbledWorld).
Proof.
  destruct (@compare_error_reported_and_logged demoBcrypt garbledWorld
              "mallory@example.com" "anything" "Invalid salt version" mallory
              eq_refl eq_refl eq_refl)
    as [Hlogin Hweb].
  split; [exact Hlogin | exact (Hweb eq_refl)].
Defined.

Lemma repository_faults_propagate_witness :
  userRepository.findAllAsync downWorld
  = (Rejected "connection refused", downWorld)
  /\ fst (@userRepository.changePasswordAsync demoBcrypt demoSchema "b"
            "n3w" downWorld) = Rejected "connection refused"
  /\ fst (@userRepository.changePasswordAsync demoBcrypt demoSchema "nobody"
            "n3w" downWorld)
     = Rejected "Cast to ObjectId failed for value nobody".
Proof.
  destruct (@repository_faults_propagate demoBcrypt demoSchema downWorld
              "connection refused" eq_refl)
    as [Hall [_ [_ [_ [Hcasts Hmalformed]]]]].
  split; [exact Hall|]. split.
  - exact (proj1 (Hcasts "b" "n3w" eq_refl)).
  - apply (Hmalformed "nobody" "n3w" eq_refl).
    intros u [<- | [<- | []]]; discriminate.
Defined.

Lemma changePasswordAsync_unknown_id_witness :
  (fst (@userRepository.changePasswordAsync demoBcrypt demoSchema "q" "n3w"
          demoWorld) = Fulfilled None
   /\ users (snd (@userRepository.changePasswordAsync demoBcrypt demoSchema
                    "q" "n3w" demoWorld))
      = users demoWorld)
  /\ (fst (@userRepository.changePasswordAsync demoBcrypt demoSchema "nobody"
             "n3w" demoWorld)
      = Rejected "Cast to ObjectId failed for value nobody"
      /\ users (snd (@userRepository.changePasswordAsync demoBcrypt
                       demoSchema "nobody" "n3w" demoWorld))
         = users demoWorld).
Proof.
  split.
  - apply (proj1 (@changePasswordAsync_unknown_id demoBcrypt demoSchema
                    demoWorld "q" "n3w"
                    ltac:(intros u [<- | [<- | []]]; discriminate)));
      reflexivity.
  - apply (proj2 (@changePasswordAsync_unknown_id demoBcrypt demoSchema
                    demoWorld "nobody" "n3w"
                    ltac:(intros u [<- | [<- | []]]; discriminate)));
      reflexivity.
Defined.

Lemma changePasswordAsync_then_login_witness :
  exists access refresh : jwt.token,
    fst (@authService.login demoBcrypt "bob@example.com" "n3w"
           (snd (@userRepository.changePasswordAsync demoBcrypt demoSchema
                   "b" "n3w" demoWorld))) =
      Fulfilled (mkServiceResponse Success "Login successfully"
                   (Some (mkILoginResponse access refresh)) 200%Z)
    /\ jwt.get "id" (jwt.decode access) = Some "U1".
Proof.
  destruct (@changePasswordAsync_then_login demoBcrypt demoSchema
              demoBcrypt_verifies
              demoWorld "b" "n3w" bob eq_refl eq_refl eq_refl)
    as [access [refresh [Hrun [Hid _]]]].
  exists access, refresh. split; assumption.
Defined.

Lemma loginWeb_issues_token_pair_witness :
  exists access refresh : jwt.token,
    @authService.loginWeb demoBcrypt "alice@example.com" "secret123" demoWorld
    = (Fulfilled (mkServiceResponse Success "Login successfully"
                    (Some (mkILoginResponse access refresh)) 200%Z),
       demoWorld)
    /\ jwt.verify access "web-key" = Some [("id", "U0")].
Proof.
  destruct (@loginWeb_issues_token_pair demoBcrypt demoWorld
              "alice@example.com" "secret123" alice
              eq_refl eq_refl eq_refl eq_refl)
    as [access [refresh [Hrun [_ [_ [Hv _]]]]]].
  exists access, refresh. split; assumption.
Defined.

Lemma login_unset_secret_signs_with_default_witness :
  exists access refresh : jwt.token,
    @authService.login demoBcrypt "alice@example.com" "secret123"
      crowdedWorld
    = (Fulfilled (mkServiceResponse Success "Login successfully"
                    (Some (mkILoginResponse access refresh)) 200%Z),
       crowdedWorld)
    /\ jwt.verify access "default_secret" = Some [("id", "U0")].
Proof.
  destruct (@login_unset_secret_signs_with_default demoBcrypt crowdedWorld
              "alice@example.com" "secret123" alice
              eq_refl eq_refl eq_refl (or_introl eq_refl))
    as [access [refresh [Hrun [Hv _]]]].
  exists access, refresh. split; assumption.
Defined.

Lemma login_shadowed_account_witness :
  @authService.login demoBcrypt "alice@example.com" "other" crowdedWorld =
    (Fulfilled (mkServiceResponse Failed "Email or Password is not correct"
                  None 422%Z), crowdedWorld).
Proof.
  exact (@login_shadowed_account demoBcrypt crowdedWorld "alice@example.com"
           "other" alice alias eq_refl eq_refl
           (or_intror (or_introl eq_refl)) eq_refl eq_refl eq_refl).
Defined.

Lemma repository_lookups_sound_and_complete_witness :
  exists r,
    userRepository.findByIdAsync "U1" demoWorld = (Fulfilled r, demoWorld)
    /\ (forall u, r = Some u ->
          In u (users demoWorld) /\ UserType.IdUser u = "U1").
Proof.
  destruct (proj2 (repository_lookups_sound_and_complete demoWorld "U1"
                     eq_refl))
    as [r [Hrun [Hsound _]]].
  exists r. split; assumption.
Defined.

Lemma createUserAsync_then_findByEmail_witness :
  let d := mkUserData "Al" "alice@example.com" "$D$x" "client-user"
             "" "" "" "" "" 0 0 "" in
  exists doc w',
    @userRepository.createUserAsync demoSchema d demoWorld
    = (Fulfilled doc, w')
    /\ users w' = [alice; bob; doc]
    /\ fst (userRepository.findByEmailAsync "alice@example.com" w')
       = Fulfilled (Some alice).
Proof.
  intros d.
  destruct (@createUserAsync_then_findByEmail demoSchema demoWorld d eq_refl)
    as [doc [w' [Hrun [Husers [_ [_ Hfind]]]]]].
  exists doc, w'. repeat split; assumption.
Defined.

Lemma issued_tokens_have_nonempty_key_witness :
  jwt.key
    (issuedRefreshToken
       (mkIRefreshTokenType
          (jwt.sign [("userId", "U1")] "default_secret"
             (jwt.mkSignOptions "7d")))) <> ""
  /\ web_secret (env crowdedWorld) = "default_secret".
Proof.
  split; [|reflexivity].
  exact (proj2 (proj2 (@issued_tokens_have_nonempty_key demoBcrypt
                         crowdedWorld))
           "U1" _ _ eq_refl eq_refl).
Defined.

Lemma login_has_no_role_gate_witness :
  (exists p,
      fst (@authService.login demoBcrypt "bob@example.com" "hunter2"
             demoWorld) =
        Fulfilled (mkServiceResponse Success "Login successfully" (Some p)
                     200%Z)) /\
  fst (@authService.loginWeb demoBcrypt "bob@example.com" "hunter2"
         demoWorld) =
    Fulfilled (mkServiceResponse Failed "Email or Password is not correct"
                 None 422%Z).
Proof.
  apply (@login_has_no_role_gate demoBcrypt demoWorld "bob@example.com"
           "hunter2" bob);
    first [reflexivity | discriminate].
Defined.
